(** * Employee and vaccine services: a shallow embedding

    The development follows [employee.service.ts] (class [EmployeeService])
    and the vaccine service (class [VaccineService]).  The relational store
    is a record of tables, a table is a list of rows in storage order, and
    the service methods are functions in a state-and-error monad over that
    store.  Query conditions are kept as syntax where the service only
    attaches them ([filterEmployees]) and are evaluated where the service
    reads one employee back ([getEmployee]). *)

From Stdlib Require Import ZArith List String Ascii Bool Lia.
From Stdlib Require Import Permutation DecimalString.
Import ListNotations.
Open Scope string_scope.
Open Scope list_scope.
Open Scope Z_scope.

(** ** JavaScript values and truthiness *)

(** The values a DTO field can hold at run time.  Numbers are the integers
    the service handles (identifiers, dni) and NaN; an object, such as a
    Date, comes with the string it renders to. *)
Inductive jsval : Type :=
| JUndefined
| JNull
| JBool (b : bool)
| JNum (n : Z)
| JNaN
| JStr (s : string)
| JObject (rendering : string).

(** [if (v)]: undefined, null, false, 0, NaN and the empty string are
    falsy, everything else is truthy. *)
Definition truthy (v : jsval) : bool :=
  match v with
  | JUndefined | JNull | JNaN => false
  | JBool b => b
  | JNum n => negb (n =? 0)
  | JStr s => negb (s =? "")%string
  | JObject _ => true
  end.

(** [String(n)] on an integer: its decimal rendering. *)
Definition String_ (n : Z) : string := NilZero.string_of_int (Z.to_int n).

(** Template-literal interpolation, [`${v}`]. *)
Definition toString (v : jsval) : string :=
  match v with
  | JUndefined => "undefined"
  | JNull => "null"
  | JBool true => "true"
  | JBool false => "false"
  | JNum n => String_ n
  | JNaN => "NaN"
  | JStr s => s
  | JObject rendering => rendering
  end.

(** Optional arguments ([dni?: number], [email?: string]): [None] stands for
    an argument that is undefined or null. *)
Definition truthyNum (o : option Z) : bool :=
  match o with Some n => negb (n =? 0) | None => false end.

Definition truthyStr (o : option string) : bool :=
  match o with Some s => negb (s =? "")%string | None => false end.

(** ** Query conditions *)

(** Exact-match conditions of the single-employee lookup. *)
Inductive Cond : Type :=
| C_status_active                 (* employee.status =:status, Status.Active *)
| C_person_dni (dni : Z)          (* person.dni =:dni *)
| C_email (email : string)        (* employee.email =:email *)
| C_id (employeeId : Z).          (* employee.id =:employeeId *)

(** Conditions a list query can carry: the exact ones and the six that
    [filterEmployees] attaches, each with its bound parameters. *)
Inductive Where : Type :=
| W_cond (c : Cond)
| W_dni_ilike (dni : string)
    (* CAST(person.dni AS varchar) ILIKE :dni *)
| W_email_ilike (email : string)
    (* employee.email ILIKE :email *)
| W_completeName_ilike (completeName : string)
    (* CONCAT(person.firstName, ' ', person.lastName) ILIKE :completeName *)
| W_vaccine_ilike (vaccine : string)
    (* vaccine.vaccineType ILIKE :vaccine *)
| W_vaccinationStatus_eq (isVaccinated : jsval)
    (* employee.vaccinationStatus =:isVaccinated *)
| W_vaccinationDate_between (startDate finishDate : jsval).
    (* employeeVaccinations.vaccinationDate BETWEEN :startDate AND :finishDate *)

(** [SelectQueryBuilder<EmployeeEntity>]: the joins are fixed, so a builder
    is the sequence of conditions attached so far. *)
Definition SelectQueryBuilder : Type := list Where.

Definition andWhere (q : SelectQueryBuilder) (w : Where) : SelectQueryBuilder :=
  q ++ [w].

Record FilterEmployeeDto : Type := mkFilter {
  f_dni : jsval;
  f_email : jsval;
  f_completeName : jsval;
  f_vaccine : jsval;
  f_isVaccinated : jsval;
  f_startDate : jsval;
  f_finishDate : jsval
}.

(** The filter object [{}]. *)
Definition emptyFilter : FilterEmployeeDto :=
  mkFilter JUndefined JUndefined JUndefined JUndefined JUndefined
           JUndefined JUndefined.

Definition like (v : jsval) : string := ("%" ++ toString v ++ "%")%string.

(** [filterEmployees(employees, filters)]: six guarded [andWhere] calls, in
    source order. *)
Definition filterEmployees (employees : SelectQueryBuilder)
    (filters : FilterEmployeeDto) : SelectQueryBuilder :=
  let employees :=
    if truthy (f_dni filters)
    then andWhere employees (W_dni_ilike (like (f_dni filters)))
    else employees in
  let employees :=
    if truthy (f_email filters)
    then andWhere employees (W_email_ilike (like (f_email filters)))
    else employees in
  let employees :=
    if truthy (f_completeName filters)
    then andWhere employees
           (W_completeName_ilike (like (f_completeName filters)))
    else employees in
  let employees :=
    if truthy (f_vaccine filters)
    then andWhere employees (W_vaccine_ilike (like (f_vaccine filters)))
    else employees in
  let employees :=
    if truthy (f_isVaccinated filters)
    then andWhere employees (W_vaccinationStatus_eq (f_isVaccinated filters))
    else employees in
  if truthy (f_startDate filters) && truthy (f_finishDate filters)
  then andWhere employees
         (W_vaccinationDate_between (f_startDate filters) (f_finishDate filters))
  else employees.

(** The conditions of [getEmployees(filters)]: the Active scope, then the
    filters when a filter object is passed. *)
Definition getEmployeesQuery (filters : option FilterEmployeeDto)
  : SelectQueryBuilder :=
  let employees := [W_cond C_status_active] in
  match filters with
  | Some f => filterEmployees employees f
  | None => employees
  end.

(** Which filter field a condition belongs to. *)
Inductive FilterField : Type :=
| FDni | FEmail | FCompleteName | FVaccine | FIsVaccinated | FDateRange.

Definition fieldOf (w : Where) : option FilterField :=
  match w with
  | W_cond _ => None
  | W_dni_ilike _ => Some FDni
  | W_email_ilike _ => Some FEmail
  | W_completeName_ilike _ => Some FCompleteName
  | W_vaccine_ilike _ => Some FVaccine
  | W_vaccinationStatus_eq _ => Some FIsVaccinated
  | W_vaccinationDate_between _ _ => Some FDateRange
  end.

Definition FilterField_eqb (a b : FilterField) : bool :=
  match a, b with
  | FDni, FDni | FEmail, FEmail | FCompleteName, FCompleteName
  | FVaccine, FVaccine | FIsVaccinated, FIsVaccinated
  | FDateRange, FDateRange => true
  | _, _ => false
  end.

(** Number of conditions in [q] that belong to field [fld]. *)
Definition countField (fld : FilterField) (q : SelectQueryBuilder) : nat :=
  List.length
    (filter (fun w => match fieldOf w with
                      | Some g => FilterField_eqb fld g
                      | None => false
                      end) q).

Definition b2n (b : bool) : nat := if b then 1%nat else 0%nat.

(** The conditions [filterEmployees] appends to a builder: what remains of
    the result after the conditions that were there before. *)
Definition appended (q : SelectQueryBuilder) (f : FilterEmployeeDto)
  : SelectQueryBuilder :=
  skipn (List.length q) (filterEmployees q f).


(** ** Entities and the store *)

(** [Status] of [app.constant]: the soft-delete flag every entity carries. *)
Inductive Status : Type := Active | Inactive.

Definition isActive (s : Status) : bool :=
  match s with Active => true | Inactive => false end.

Record PersonEntity : Type := mkPerson {
  person_id : Z;
  person_dni : Z;
  person_firstName : string;
  person_lastName : string;
  person_status : Status;
  person_createdDate : Z
}.

Record RoleEntity : Type := mkRole {
  role_id : Z;
  role_name : string;
  role_status : Status
}.

Record VaccineEntity : Type := mkVaccine {
  vaccine_id : Z;
  vaccine_vaccineType : string;
  vaccine_status : Status
}.

(** Columns of the remaining tables.  A relation is a foreign key in the
    row and a nested entity in the joined graph. *)
Record UserColumns : Type := mkUser {
  user_id : Z;
  user_username : string;
  user_password : string;
  user_status : Status;
  user_createdDate : Z;
  user_employeeId : Z
}.

Record UserRoleColumns : Type := mkUserRole {
  userRole_id : Z;
  userRole_status : Status;
  userRole_createdDate : Z;
  userRole_userId : Z;
  userRole_roleId : option Z
}.

Record EmployeeVaccinationColumns : Type := mkEmployeeVaccination {
  employeeVaccination_id : Z;
  employeeVaccination_doseNumber : Z;
  employeeVaccination_vaccinationDate : Z;
  employeeVaccination_status : Status;
  employeeVaccination_employeeId : Z;
  employeeVaccination_vaccineId : Z
}.

Record EmployeeColumns : Type := mkEmployee {
  employee_id : Z;
  employee_email : string;
  employee_birthDate : Z;
  employee_homeAddress : string;
  employee_mobilePhone : string;
  employee_vaccinationStatus : bool;
  employee_status : Status;
  employee_createdDate : Z;
  employee_personId : Z
}.

(** The joined entity graph, as the ORM hands it to the service.  [None] is
    a relation that is null or not loaded. *)
Record UserRoleEntity : Type := mkUserRoleEntity {
  userRole_cols : UserRoleColumns;
  userRole_user : option UserColumns;
  userRole_role : option RoleEntity
}.

Record UserEntity : Type := mkUserEntity {
  user_cols : UserColumns;
  user_userRoles : option (list UserRoleEntity)
}.

Record EmployeeVaccinationEntity : Type := mkEmployeeVaccinationEntity {
  employeeVaccination_cols : EmployeeVaccinationColumns;
  employeeVaccination_vaccine : option VaccineEntity
}.

Record EmployeeEntity : Type := mkEmployeeEntity {
  employee_cols : EmployeeColumns;
  employee_person : option PersonEntity;
  employee_user : option UserEntity;
  employee_employeeVaccinations : option (list EmployeeVaccinationEntity)
}.

Record Store : Type := mkStore {
  persons : list PersonEntity;
  employees : list EmployeeColumns;
  users : list UserColumns;
  userRoles : list UserRoleColumns;
  roles : list RoleEntity;
  employeeVaccinations : list EmployeeVaccinationColumns;
  vaccines : list VaccineEntity
}.

Definition emptyStore : Store := mkStore [] [] [] [] [] [] [].

(** ** Errors and the service monad *)

Definition BAD_REQUEST : Z := 400.

Inductive Error : Type :=
| EmployeeException (kind : string) (httpStatus : Z)
| TypeError (what : string)
| BcryptError (message : string).

Inductive Result (A : Type) : Type :=
| Ok (a : A)
| Err (e : Error).
Arguments Ok {A} a.
Arguments Err {A} e.

(** An awaited call: it reads and writes the store and either returns or
    throws.  What was written before a throw stays written. *)
Definition M (A : Type) : Type := Store -> Result A * Store.

Definition ret {A} (a : A) : M A := fun st => (Ok a, st).

Definition throw {A} (e : Error) : M A := fun st => (Err e, st).

Definition bind {A B} (m : M A) (k : A -> M B) : M B :=
  fun st =>
    match m st with
    | (Ok a, st') => k a st'
    | (Err e, st') => (Err e, st')
    end.

Definition gets {A} (f : Store -> A) : M A := fun st => (Ok (f st), st).

Definition modify (f : Store -> Store) : M unit := fun st => (Ok tt, f st).

Notation "x <- m ;; k" := (bind m (fun x => k))
  (at level 61, m at next level, right associativity).
Notation "m ;;; k" := (bind m (fun _ => k))
  (at level 61, right associativity).

(** Generated primary key: one more than the largest key in the table. *)
Definition nextId (ids : list Z) : Z := 1 + fold_right Z.max 0 ids.

(** ** The joined read (employee query composer) *)

(** Every join is a left join that also asks the joined row to be Active:
    an inactive row is left out of its branch, the parent stays. *)
Definition joinRole (st : Store) (ur : UserRoleColumns) : option RoleEntity :=
  find (fun r =>
          match userRole_roleId ur with
          | Some k => (role_id r =? k) && isActive (role_status r)
          | None => false
          end) (roles st).

Definition joinUserRole (st : Store) (ur : UserRoleColumns) : UserRoleEntity :=
  {| userRole_cols := ur;
     userRole_user := None;
     userRole_role := joinRole st ur |}.

Definition joinUserRoles (st : Store) (u : UserColumns) : list UserRoleEntity :=
  map (joinUserRole st)
      (filter (fun ur => (userRole_userId ur =? user_id u)
                         && isActive (userRole_status ur)) (userRoles st)).

Definition joinUser (st : Store) (e : EmployeeColumns) : option UserEntity :=
  option_map
    (fun u => {| user_cols := u; user_userRoles := Some (joinUserRoles st u) |})
    (find (fun u => (user_employeeId u =? employee_id e)
                    && isActive (user_status u)) (users st)).

Definition joinVaccine (st : Store) (ev : EmployeeVaccinationColumns)
  : option VaccineEntity :=
  find (fun v => (vaccine_id v =? employeeVaccination_vaccineId ev)
                 && isActive (vaccine_status v)) (vaccines st).

Definition joinEmployeeVaccinations (st : Store) (e : EmployeeColumns)
  : list EmployeeVaccinationEntity :=
  map (fun ev => {| employeeVaccination_cols := ev;
                    employeeVaccination_vaccine := joinVaccine st ev |})
      (filter (fun ev => (employeeVaccination_employeeId ev =? employee_id e)
                         && isActive (employeeVaccination_status ev))
              (employeeVaccinations st)).

Definition joinPerson (st : Store) (e : EmployeeColumns) : option PersonEntity :=
  find (fun p => (person_id p =? employee_personId e)
                 && isActive (person_status p)) (persons st).

Definition joinEmployee (st : Store) (e : EmployeeColumns) : EmployeeEntity :=
  {| employee_cols := e;
     employee_person := joinPerson st e;
     employee_user := joinUser st e;
     employee_employeeVaccinations := Some (joinEmployeeVaccinations st e) |}.

(** [createQueryBuilder(alias)] with the six joins: one graph per employee
    row, in storage order. *)
Definition createQueryBuilder (st : Store) : list EmployeeEntity :=
  map (joinEmployee st) (employees st).

Definition evalCond (c : Cond) (e : EmployeeEntity) : bool :=
  match c with
  | C_status_active => isActive (employee_status (employee_cols e))
  | C_person_dni dni =>
      match employee_person e with
      | Some p => person_dni p =? dni
      | None => false
      end
  | C_email email => (employee_email (employee_cols e) =? email)%string
  | C_id employeeId => employee_id (employee_cols e) =? employeeId
  end.

(** [getOne()]: the first employee that meets every condition, or null. *)
Definition getOne (st : Store) (q : list Cond) : option EmployeeEntity :=
  find (fun e => forallb (fun c => evalCond c e) q) (createQueryBuilder st).

(** The conditions [getEmployee] puts on its query: the Active scope, then
    one condition per truthy argument. *)
Definition getEmployeeQuery (dni : option Z) (email : option string)
    (employeeId : option Z) : list Cond :=
  let employee := [C_status_active] in
  let employee :=
    match dni with
    | Some d => if truthyNum dni then employee ++ [C_person_dni d] else employee
    | None => employee
    end in
  let employee :=
    match email with
    | Some s => if truthyStr email then employee ++ [C_email s] else employee
    | None => employee
    end in
  match employeeId with
  | Some k => if truthyNum employeeId then employee ++ [C_id k] else employee
  | None => employee
  end.

Definition getEmployee (dni : option Z) (email : option string)
    (employeeId : option Z) : M (option EmployeeEntity) :=
  gets (fun st => getOne st (getEmployeeQuery dni email employeeId)).

(** ** Projection *)

Record VaccineView : Type := mkVaccineView {
  vv_id : option Z;
  vv_name : option string;
  vv_doseNumber : Z;
  vv_vaccinationDate : Z;
  vv_employeeVaccinationId : Z
}.

Record RoleView : Type := mkRoleView {
  rv_id : option Z;
  rv_name : option string
}.

(** The [Employee] interface of [list-employees.interface].  [None] in
    [emp_vaccines] and [emp_roles] is null, [Some []] an empty array. *)
Record Employee : Type := mkEmployeeView {
  emp_id : Z;
  emp_dni : Z;
  emp_firstName : string;
  emp_lastName : string;
  emp_birthDate : Z;
  emp_homeAddress : string;
  emp_mobilePhone : string;
  emp_status : string;
  emp_username : option string;
  emp_password : option string;
  emp_vaccinationStatus : bool;
  emp_vaccines : option (list VaccineView);
  emp_roles : option (list RoleView)
}.

(** [xs?.length > 0]: false on undefined and on the empty array. *)
Definition lengthGt0 {A} (xs : option (list A)) : bool :=
  match xs with
  | Some (_ :: _) => true
  | _ => false
  end.

Definition statusText (s : Status) : string :=
  if isActive s then "Active" else "Inactive".

Definition vaccineView (employeeVaccination : EmployeeVaccinationEntity)
  : VaccineView :=
  {| vv_id := option_map vaccine_id
                (employeeVaccination_vaccine employeeVaccination);
     vv_name := option_map vaccine_vaccineType
                  (employeeVaccination_vaccine employeeVaccination);
     vv_doseNumber :=
       employeeVaccination_doseNumber
         (employeeVaccination_cols employeeVaccination);
     vv_vaccinationDate :=
       employeeVaccination_vaccinationDate
         (employeeVaccination_cols employeeVaccination);
     vv_employeeVaccinationId :=
       employeeVaccination_id (employeeVaccination_cols employeeVaccination) |}.

Definition roleView (userRole : UserRoleEntity) : RoleView :=
  {| rv_id := option_map role_id (userRole_role userRole);
     rv_name := option_map role_name (userRole_role userRole) |}.

(** [employee.user?.userRoles] *)
Definition userRolesOf (employee : EmployeeEntity)
  : option (list UserRoleEntity) :=
  match employee_user employee with
  | Some u => user_userRoles u
  | None => None
  end.

(** The callback of [mapEmployees]: [employee.person.dni] throws when the
    person is null, every other access is guarded by [?.]. *)
Definition mapEmployee (employee : EmployeeEntity) : Result Employee :=
  match employee_person employee with
  | None => Err (TypeError "employee.person.dni")
  | Some person =>
      Ok {| emp_id := employee_id (employee_cols employee);
            emp_dni := person_dni person;
            emp_firstName := person_firstName person;
            emp_lastName := person_lastName person;
            emp_birthDate := employee_birthDate (employee_cols employee);
            emp_homeAddress := employee_homeAddress (employee_cols employee);
            emp_mobilePhone := employee_mobilePhone (employee_cols employee);
            emp_status := statusText (employee_status (employee_cols employee));
            emp_username :=
              option_map (fun u => user_username (user_cols u))
                         (employee_user employee);
            emp_password :=
              option_map (fun u => user_password (user_cols u))
                         (employee_user employee);
            emp_vaccinationStatus :=
              employee_vaccinationStatus (employee_cols employee);
            emp_vaccines :=
              if lengthGt0 (employee_employeeVaccinations employee)
              then option_map (map vaccineView)
                              (employee_employeeVaccinations employee)
              else None;
            emp_roles :=
              if lengthGt0 (userRolesOf employee)
              then option_map (map roleView) (userRolesOf employee)
              else None |}
  end.

(** [employees.map(...)]: the first callback that throws ends the call. *)
Fixpoint mapEmployees (employees : list EmployeeEntity)
  : Result (list Employee) :=
  match employees with
  | [] => Ok []
  | employee :: rest =>
      match mapEmployee employee with
      | Err e => Err e
      | Ok r =>
          match mapEmployees rest with
          | Err e => Err e
          | Ok rs => Ok (r :: rs)
          end
      end
  end.

(** [myInformation(dni)]: the same record, built from the employee that
    [getEmployee(dni)] returns; a null employee throws at [employee.id]. *)
Definition myInformation (dni : Z) : M Employee :=
  found <- getEmployee (Some dni) None None ;;
  match found with
  | None => throw (TypeError "employee.id")
  | Some employee =>
      match employee_person employee with
      | None => throw (TypeError "employee.person.dni")
      | Some person =>
          ret {| emp_id := employee_id (employee_cols employee);
                 emp_dni := person_dni person;
                 emp_firstName := person_firstName person;
                 emp_lastName := person_lastName person;
                 emp_birthDate := employee_birthDate (employee_cols employee);
                 emp_homeAddress :=
                   employee_homeAddress (employee_cols employee);
                 emp_mobilePhone :=
                   employee_mobilePhone (employee_cols employee);
                 emp_status :=
                   statusText (employee_status (employee_cols employee));
                 emp_username :=
                   option_map (fun u => user_username (user_cols u))
                              (employee_user employee);
                 emp_password :=
                   option_map (fun u => user_password (user_cols u))
                              (employee_user employee);
                 emp_vaccinationStatus :=
                   employee_vaccinationStatus (employee_cols employee);
                 emp_vaccines :=
                   if lengthGt0 (employee_employeeVaccinations employee)
                   then option_map (map vaccineView)
                                   (employee_employeeVaccinations employee)
                   else None;
                 emp_roles :=
                   if lengthGt0 (userRolesOf employee)
                   then option_map (map roleView) (userRolesOf employee)
                   else None |}
      end
  end.

(** The [CreateEmployee] interface of [create-employee.interface]. *)
Record CreateEmployee : Type := mkCreateEmployee {
  ce_id : Z;
  ce_dni : Z;
  ce_firstName : string;
  ce_lastName : string;
  ce_birthDate : Z;
  ce_homeAddress : string;
  ce_mobilePhone : string;
  ce_status : string;
  ce_username : option string;
  ce_password : option string;
  ce_role : option string
}.

Definition mapCreateEmployee (employee : EmployeeEntity)
    (userrole : UserRoleEntity) : Result CreateEmployee :=
  match employee_person employee with
  | None => Err (TypeError "employee.person.dni")
  | Some person =>
      Ok {| ce_id := employee_id (employee_cols employee);
            ce_dni := person_dni person;
            ce_firstName := person_firstName person;
            ce_lastName := person_lastName person;
            ce_birthDate := employee_birthDate (employee_cols employee);
            ce_homeAddress := employee_homeAddress (employee_cols employee);
            ce_mobilePhone := employee_mobilePhone (employee_cols employee);
            ce_status := statusText (employee_status (employee_cols employee));
            ce_username := option_map user_username (userRole_user userrole);
            ce_password := option_map user_password (userRole_user userrole);
            ce_role := option_map role_name (userRole_role userrole) |}
  end.

Definition liftR {A} (r : Result A) : M A := fun st => (r, st).

(** ** DTOs of the mutation flow *)

Record CreateEmployeeDto : Type := mkCreateDto {
  c_dni : Z;
  c_firstName : string;
  c_lastName : string;
  c_email : string;
  c_birthDate : Z;
  c_homeAddress : string;
  c_mobilePhone : string;
  c_vaccinationStatus : bool;
  c_role : string
}.

(** Every field of the update DTO may be left out ([None] is undefined). *)
Record UpdateEmployeeDto : Type := mkUpdateDto {
  u_dni : option Z;
  u_firstName : option string;
  u_lastName : option string;
  u_email : option string;
  u_birthDate : option Z;
  u_homeAddress : option string;
  u_mobilePhone : option string;
  u_vaccinationStatus : option bool;
  u_username : option string;
  u_password : option string
}.

(** What [updateEmployee] returns: the confirmation of a soft delete or the
    confirmation of an update. *)
Inductive UpdateEmployeeResult : Type :=
| Deleted (message : string) (id : Z) (status : string)
          (employeeName : string) (dni : Z) (email : string)
| Updated (message : string) (employee : UpdateEmployeeDto).

(** ** Writes to the store *)

Definition setPersons (st : Store) (t : list PersonEntity) : Store :=
  mkStore t (employees st) (users st) (userRoles st) (roles st)
          (employeeVaccinations st) (vaccines st).

Definition setEmployees (st : Store) (t : list EmployeeColumns) : Store :=
  mkStore (persons st) t (users st) (userRoles st) (roles st)
          (employeeVaccinations st) (vaccines st).

Definition setUsers (st : Store) (t : list UserColumns) : Store :=
  mkStore (persons st) (employees st) t (userRoles st) (roles st)
          (employeeVaccinations st) (vaccines st).

Definition setUserRoles (st : Store) (t : list UserRoleColumns) : Store :=
  mkStore (persons st) (employees st) (users st) t (roles st)
          (employeeVaccinations st) (vaccines st).

Definition orElse {A} (o : option A) (d : A) : A :=
  match o with Some a => a | None => d end.

Definition isSome {A} (o : option A) : bool :=
  match o with Some _ => true | None => false end.

(** A partial entity handed to an update: a property left undefined keeps
    its column. *)
Record EmployeePartial : Type := mkEmployeePartial {
  pe_email : option string;
  pe_birthDate : option Z;
  pe_homeAddress : option string;
  pe_mobilePhone : option string;
  pe_vaccinationStatus : option bool;
  pe_status : option Status
}.

Record PersonPartial : Type := mkPersonPartial {
  pp_dni : option Z;
  pp_firstName : option string;
  pp_lastName : option string
}.

Record UserPartial : Type := mkUserPartial {
  up_username : option string;
  up_password : option string
}.

Definition patchEmployee (p : EmployeePartial) (r : EmployeeColumns)
  : EmployeeColumns :=
  {| employee_id := employee_id r;
     employee_email := orElse (pe_email p) (employee_email r);
     employee_birthDate := orElse (pe_birthDate p) (employee_birthDate r);
     employee_homeAddress := orElse (pe_homeAddress p) (employee_homeAddress r);
     employee_mobilePhone := orElse (pe_mobilePhone p) (employee_mobilePhone r);
     employee_vaccinationStatus :=
       orElse (pe_vaccinationStatus p) (employee_vaccinationStatus r);
     employee_status := orElse (pe_status p) (employee_status r);
     employee_createdDate := employee_createdDate r;
     employee_personId := employee_personId r |}.

Definition patchPerson (p : PersonPartial) (r : PersonEntity) : PersonEntity :=
  {| person_id := person_id r;
     person_dni := orElse (pp_dni p) (person_dni r);
     person_firstName := orElse (pp_firstName p) (person_firstName r);
     person_lastName := orElse (pp_lastName p) (person_lastName r);
     person_status := person_status r;
     person_createdDate := person_createdDate r |}.

Definition patchUser (p : UserPartial) (r : UserColumns) : UserColumns :=
  {| user_id := user_id r;
     user_username := orElse (up_username p) (user_username r);
     user_password := orElse (up_password p) (user_password r);
     user_status := user_status r;
     user_createdDate := user_createdDate r;
     user_employeeId := user_employeeId r |}.

(** An id that is undefined selects no row. *)
Definition idIs (criteria : option Z) (k : Z) : bool :=
  match criteria with Some i => k =? i | None => false end.

(** [_employeeRepository.update(id, partial)] *)
Definition employeeRepository_update (id : Z) (partial : EmployeePartial)
  : M unit :=
  modify (fun st =>
    setEmployees st
      (map (fun r => if employee_id r =? id then patchEmployee partial r else r)
           (employees st))).

(** [_employeeRepository.save(employee)] on a new employee: the row gets a
    generated id and the default status, and the saved entity keeps the
    person it was given. *)
Definition employeeRepository_save (email : string) (birthDate : Z)
    (homeAddress mobilePhone : string) (vaccinationStatus : bool)
    (createdDate : Z) (person : PersonEntity) : M EmployeeEntity :=
  fun st =>
    let row :=
      {| employee_id := nextId (map employee_id (employees st));
         employee_email := email;
         employee_birthDate := birthDate;
         employee_homeAddress := homeAddress;
         employee_mobilePhone := mobilePhone;
         employee_vaccinationStatus := vaccinationStatus;
         employee_status := Active;
         employee_createdDate := createdDate;
         employee_personId := person_id person |} in
    (Ok {| employee_cols := row;
           employee_person := Some person;
           employee_user := None;
           employee_employeeVaccinations := None |},
     setEmployees st (employees st ++ [row])).

(** ** Collaborating services *)

(** Modelled from the spec: [PersonService.getPerson(dni)], whose source is
    not part of this development; the spec has it look up the existing
    Person by dni. *)
Definition PersonService_getPerson (dni : Z) : M (option PersonEntity) :=
  gets (fun st => find (fun p => person_dni p =? dni) (persons st)).

(** Modelled from the spec: [PersonService.createPerson(entity)]; the spec
    has it create the Person, status defaulting to Active. *)
Definition PersonService_createPerson (dni : Z) (firstName lastName : string)
    (createdDate : Z) : M PersonEntity :=
  fun st =>
    let row :=
      {| person_id := nextId (map person_id (persons st));
         person_dni := dni;
         person_firstName := firstName;
         person_lastName := lastName;
         person_status := Active;
         person_createdDate := createdDate |} in
    (Ok row, setPersons st (persons st ++ [row])).

(** Modelled from the spec: [PersonService.updatePerson(id, partial)]; the
    spec has it overwrite the Person's fields from the partial entity. *)
Definition PersonService_updatePerson (id : option Z) (partial : PersonPartial)
  : M unit :=
  modify (fun st =>
    setPersons st
      (map (fun r => if idIs id (person_id r) then patchPerson partial r else r)
           (persons st))).

(** Modelled from the spec: [RoleService.getRole(name)]; the spec has it
    look up the Role by name. *)
Definition RoleService_getRole (name : string) : M (option RoleEntity) :=
  gets (fun st => find (fun r => (role_name r =? name)%string) (roles st)).

(** Modelled from the spec: [UserService.createUser(entity)]; the spec has
    it create the User with the username and password it is given, linked
    to the employee. *)
Definition UserService_createUser (username password : string)
    (createdDate : Z) (employee : EmployeeEntity) : M UserColumns :=
  fun st =>
    let row :=
      {| user_id := nextId (map user_id (users st));
         user_username := username;
         user_password := password;
         user_status := Active;
         user_createdDate := createdDate;
         user_employeeId := employee_id (employee_cols employee) |} in
    (Ok row, setUsers st (users st ++ [row])).

(** Modelled from the spec: [UserService.updateuser(id, partial)]. *)
Definition UserService_updateuser (id : option Z) (partial : UserPartial)
  : M unit :=
  modify (fun st =>
    setUsers st
      (map (fun r => if idIs id (user_id r) then patchUser partial r else r)
           (users st))).

(** Modelled from the spec: [UserRoleService.createUserRole(entity)]; the
    spec has it create the UserRole that links the User to the Role. *)
Definition UserRoleService_createUserRole (user : UserColumns)
    (role : option RoleEntity) (createdDate : Z) : M UserRoleEntity :=
  fun st =>
    let row :=
      {| userRole_id := nextId (map userRole_id (userRoles st));
         userRole_status := Active;
         userRole_createdDate := createdDate;
         userRole_userId := user_id user;
         userRole_roleId := option_map role_id role |} in
    (Ok {| userRole_cols := row;
           userRole_user := Some user;
           userRole_role := role |},
     setUserRoles st (userRoles st ++ [row])).

(** Modelled from the spec: the constant [Type.DELETE] of [app.constant],
    with the value the spec's soft-delete example passes. *)
Definition Type_DELETE : string := "DELETE".

(** Modelled from the spec: the constant [Type.UPDATE] of [app.constant],
    with the value the spec's update example passes. *)
Definition Type_UPDATE : string := "UPDATE".

(** Modelled from the spec: the constant [User.ADMINISTRATOR] of
    [app.constant], with the value the spec's soft-delete example passes. *)
Definition User_ADMINISTRATOR : string := "ADMINISTRATOR".

(** [x === c] for an optional string argument. *)
Definition strictEq (x : option string) (c : string) : bool :=
  match x with Some s => (s =? c)%string | None => false end.

(** [String(updateEmployee?.dni)] *)
Definition StringOpt (n : option Z) : string :=
  match n with Some k => String_ k | None => "undefined" end.

(** ** Sample data *)

(** A format validator for examples: eight characters. *)
Definition eightChars (s : string) : bool := Nat.eqb (String.length s) 8.

Definition tagHash (data : string) (saltRounds : Z) : string :=
  ("$2b$" ++ String_ saltRounds ++ "$" ++ data)%string.

Definition nurse : RoleEntity := mkRole 1 "NURSE" Active.

Definition ana : CreateEmployeeDto :=
  mkCreateDto 12345678 "Ana" "Diaz" "ana@x.com" 19900101 "Main St 1"
              "0990000000" false "NURSE".

(** A store that holds the roles and nothing else. *)
Definition seededStore : Store := mkStore [] [] [] [] [nurse] [] [].

(** The store after Ana was created on [seededStore]. *)
Definition anaStore : Store :=
  mkStore [mkPerson 1 12345678 "Ana" "Diaz" Active 20211101]
          [mkEmployee 1 "ana@x.com" 19900101 "Main St 1" "0990000000" false
                      Active 20211101 1]
          [mkUser 1 "ana@x.com" "12345678" Active 20211101 1]
          [mkUserRole 1 Active 20211101 1 (Some 1)]
          [nurse] [] [].

(** The same store after Ana's employee row was soft-deleted. *)
Definition anaDeletedStore : Store :=
  setEmployees anaStore
    [mkEmployee 1 "ana@x.com" 19900101 "Main St 1" "0990000000" false
                Inactive 20211101 1].

(** Two active employees; the first one in storage order is Bea. *)
Definition twoStore : Store :=
  mkStore [mkPerson 1 11111111 "Bea" "Ruiz" Active 20211101;
           mkPerson 2 12345678 "Ana" "Diaz" Active 20211102]
          [mkEmployee 1 "bea@x.com" 19850505 "Oak St 2" "0991111111" true
                      Active 20211101 1;
           mkEmployee 2 "ana@x.com" 19900101 "Main St 1" "0990000000" false
                      Active 20211102 2]
          [mkUser 1 "bea@x.com" "11111111" Active 20211101 1;
           mkUser 2 "ana@x.com" "12345678" Active 20211102 2]
          [mkUserRole 1 Active 20211101 1 (Some 1);
           mkUserRole 2 Active 20211102 2 (Some 1)]
          [nurse]
          [mkEmployeeVaccination 1 2 20210601 Active 1 1]
          [mkVaccine 1 "Sputnik" Active; mkVaccine 2 "AstraZeneca" Active;
           mkVaccine 3 "Pfizer" Inactive].

(** A new person who asks for the email of the soft-deleted employee. *)
Definition eva : CreateEmployeeDto :=
  mkCreateDto 87654321 "Eva" "Mora" "ana@x.com" 19920202 "Elm St 3"
              "0992222222" true "NURSE".

(** A dto without an email and with a dni that [eightChars] rejects. *)
Definition nemo : CreateEmployeeDto :=
  mkCreateDto 7 "Nemo" "Nadie" "" 19800808 "Sea St 4" "0993333333" false
              "NURSE".

(** The record that creating Ana returns. *)
Definition anaRecord : CreateEmployee :=
  mkCreateEmployee 1 12345678 "Ana" "Diaz" 19900101 "Main St 1" "0990000000"
                   "Active" (Some "ana@x.com") (Some "12345678") (Some "NURSE").

(** An update whose dni is rejected by [eightChars], with a password. *)
Definition badDniWithPassword : UpdateEmployeeDto :=
  mkUpdateDto (Some 7) (Some "Anna") (Some "Diaz Vera") (Some "anna@x.com")
              (Some 19900101) (Some "Main St 1") (Some "0990000000")
              (Some true) None (Some "secret").

(** The same update without a password. *)
Definition badDniNoPassword : UpdateEmployeeDto :=
  mkUpdateDto (Some 7) (Some "Anna") (Some "Diaz Vera") (Some "anna@x.com")
              (Some 19900101) (Some "Main St 1") (Some "0990000000")
              (Some true) None None.

(** ** The services *)

Section Services.

(** [validateID] of [utils/validateiD]: the format policy is external. *)
Variable validateID : string -> bool.

(** The digest bcrypt computes for a string and a number of salt rounds. *)
Variable hashString : string -> Z -> string.

(** The store's ordering of [vaccineType] values ([a] sorts no later than
    [b]). *)
Variable collate : string -> string -> bool.

(** [bcrypt.hash(data, saltRounds)]: the promise is rejected when the data
    is undefined or null. *)
Definition bcrypt_hash (data : option string) (saltRounds : Z) : M string :=
  match data with
  | None => throw (BcryptError "data and salt arguments required")
  | Some d => ret (hashString d saltRounds)
  end.

Definition createEmploye (createEmployee : CreateEmployeeDto)
    (currentDay : Z) : M CreateEmployee :=
  existPerson <- PersonService_getPerson (c_dni createEmployee) ;;
  existEmailEmploye <- getEmployee None (Some (c_email createEmployee)) None ;;
  let isValidDni := validateID (String_ (c_dni createEmployee)) in
  role <- RoleService_getRole (c_role createEmployee) ;;
  if isSome existPerson
  then throw (EmployeeException "dni-exist" BAD_REQUEST)
  else if isSome existEmailEmploye
  then throw (EmployeeException "email-exist" BAD_REQUEST)
  else if negb isValidDni
  then throw (EmployeeException "invalid-dni" BAD_REQUEST)
  else
    savedPerson <- PersonService_createPerson (c_dni createEmployee)
                     (c_firstName createEmployee) (c_lastName createEmployee)
                     currentDay ;;
    savedEmployee <- employeeRepository_save (c_email createEmployee)
                       (c_birthDate createEmployee)
                       (c_homeAddress createEmployee)
                       (c_mobilePhone createEmployee)
                       (c_vaccinationStatus createEmployee)
                       currentDay savedPerson ;;
    savedUser <- UserService_createUser (c_email createEmployee)
                   (String_ (c_dni createEmployee)) currentDay savedEmployee ;;
    savedUserRole <- UserRoleService_createUserRole savedUser role currentDay ;;
    liftR (mapCreateEmployee savedEmployee savedUserRole).

(** The soft-delete branch of [updateEmployee]. *)
Definition softDelete (findEmployee : EmployeeEntity)
  : M UpdateEmployeeResult :=
  employeeRepository_update (employee_id (employee_cols findEmployee))
    (mkEmployeePartial None None None None None (Some Inactive)) ;;;
  match employee_person findEmployee with
  | None => throw (TypeError "findEmployee.person.firstName")
  | Some person =>
      ret (Deleted "The employee has been deleted successfully"
                   (employee_id (employee_cols findEmployee))
                   "Inactive"
                   (person_firstName person ++ " " ++ person_lastName person)%string
                   (person_dni person)
                   (employee_email (employee_cols findEmployee)))
  end.

(** The update branch of [updateEmployee].  The password that is hashed is
    the one of the user entity that was just constructed, which holds no
    field yet. *)
Definition applyUpdate (findEmployee : EmployeeEntity)
    (updateEmployee : option UpdateEmployeeDto) : M UpdateEmployeeResult :=
  match updateEmployee with
  | None => throw (TypeError "updateEmployee.birthDate")
  | Some dto =>
      employeeRepository_update (employee_id (employee_cols findEmployee))
        {| pe_birthDate := u_birthDate dto;
           pe_email := u_email dto;
           pe_homeAddress := u_homeAddress dto;
           pe_mobilePhone := u_mobilePhone dto;
           pe_vaccinationStatus := u_vaccinationStatus dto;
           pe_status := None |} ;;;
      let isValidDni := validateID (StringOpt (u_dni dto)) in
      PersonService_updatePerson
        (option_map person_id (employee_person findEmployee))
        {| pp_dni := if isValidDni then u_dni dto else None;
           pp_firstName := u_firstName dto;
           pp_lastName := u_lastName dto |} ;;;
      let user := mkUserPartial None None in
      password <-
        (if truthyStr (u_password dto)
         then
           let saltRounds := 10 in
           hashedPassword <- bcrypt_hash (up_password user) saltRounds ;;
           ret (Some hashedPassword)
         else ret (up_password user)) ;;
      UserService_updateuser
        (option_map (fun u => user_id (user_cols u))
                    (employee_user findEmployee))
        {| up_password := password;
           up_username := if truthyStr (u_email dto)
                          then u_email dto
                          else u_username dto |} ;;;
      ret (Updated "The employee has been updated successfully" dto)
  end.

(** [updateEmployee(dni, role, type, updateEmployee)]: both guarded blocks
    return, so the second guard is tried only when the first one fails, and
    the throw is reached only when both fail. *)
Definition updateEmployee (dni : Z) (role type : option string)
    (updateEmployee : option UpdateEmployeeDto) : M UpdateEmployeeResult :=
  findEmployee <- getEmployee (Some dni) None None ;;
  match findEmployee with
  | Some found =>
      if truthyNum (Some dni) && strictEq type Type_DELETE
         && strictEq role User_ADMINISTRATOR
      then softDelete found
      else if truthyNum (Some dni) && strictEq type Type_UPDATE
      then applyUpdate found updateEmployee
      else throw (EmployeeException "employee-not-found" BAD_REQUEST)
  | None => throw (EmployeeException "employee-not-found" BAD_REQUEST)
  end.

(** ** Vaccine lookup *)

(** [ORDER BY vaccineType ASC]: a stable insertion sort under the store's
    ordering. *)
Fixpoint insertBy (v : VaccineEntity) (vs : list VaccineEntity)
  : list VaccineEntity :=
  match vs with
  | [] => [v]
  | w :: rest =>
      if collate (vaccine_vaccineType v) (vaccine_vaccineType w)
      then v :: w :: rest
      else w :: insertBy v rest
  end.

Definition orderBy (vs : list VaccineEntity) : list VaccineEntity :=
  fold_right insertBy [] vs.

Definition getVaccines : M (list VaccineEntity) :=
  gets (fun st =>
          orderBy (filter (fun v => isActive (vaccine_status v)) (vaccines st))).

(** Ascending by [vaccineType]: every vaccine sorts no later than the ones
    after it. *)
Fixpoint ascending (vs : list VaccineEntity) : Prop :=
  match vs with
  | [] => True
  | v :: rest =>
      Forall (fun w => collate (vaccine_vaccineType v)
                               (vaccine_vaccineType w) = true) rest
      /\ ascending rest
  end.


(** What the projection promises about one employee and its record: the
    sub-lists are null when their source is empty or absent, and never an
    empty array. *)
Definition nullWhenEmpty (e : EmployeeEntity) (r : Employee) : Prop :=
  (lengthGt0 (employee_employeeVaccinations e) = false -> emp_vaccines r = None)
  /\ (lengthGt0 (userRolesOf e) = false -> emp_roles r = None)
  /\ emp_vaccines r <> Some []
  /\ emp_roles r <> Some [].

(** A soft delete of employee [id] on one row: the status of the row with
    that id becomes Inactive, every other column of every row stays. *)
Definition softDeleted (id : Z) (r r' : EmployeeColumns) : Prop :=
  employee_id r' = employee_id r
  /\ employee_email r' = employee_email r
  /\ employee_birthDate r' = employee_birthDate r
  /\ employee_homeAddress r' = employee_homeAddress r
  /\ employee_mobilePhone r' = employee_mobilePhone r
  /\ employee_vaccinationStatus r' = employee_vaccinationStatus r
  /\ employee_createdDate r' = employee_createdDate r
  /\ employee_personId r' = employee_personId r
  /\ employee_status r'
     = if employee_id r =? id then Inactive else employee_status r.

(** Every table other than the employees is the same in both stores. *)
Definition sameOtherTables (st st' : Store) : Prop :=
  persons st' = persons st
  /\ users st' = users st
  /\ userRoles st' = userRoles st
  /\ roles st' = roles st
  /\ employeeVaccinations st' = employeeVaccinations st
  /\ vaccines st' = vaccines st.

Definition employeeNotFound : Error :=
  EmployeeException "employee-not-found" BAD_REQUEST.

Definition dniExist : Error := EmployeeException "dni-exist" BAD_REQUEST.
Definition emailExist : Error := EmployeeException "email-exist" BAD_REQUEST.
Definition invalidDni : Error := EmployeeException "invalid-dni" BAD_REQUEST.

(** ** List queries *)

(** [getMany()] of a list query.  Pattern and range conditions are
    evaluated by the store engine, so the execution of a list query is
    passed in: a function of the store and of the conditions. *)
Definition Engine : Type := Store -> SelectQueryBuilder -> list EmployeeEntity.

Definition getEmployees (getMany : Engine) (filters : option FilterEmployeeDto)
  : M (list EmployeeEntity) :=
  gets (fun st => getMany st (getEmployeesQuery filters)).

Definition listEmployees (getMany : Engine)
    (filters : option FilterEmployeeDto) : M (list Employee) :=
  employees <- getEmployees getMany filters ;;
  liftR (mapEmployees employees).

(** An engine for examples: it applies the exact conditions to the joined
    employees and lets every pattern and range condition pass. *)
Definition scanExact : Engine := fun st q =>
  filter (fun e => forallb (fun w => match w with
                                     | W_cond c => evalCond c e
                                     | _ => true
                                     end) q)
         (createQueryBuilder st).

(** [twoStore] after Bea's person was set Inactive. *)
Definition orphanStore : Store :=
  setPersons twoStore
    [mkPerson 1 11111111 "Bea" "Ruiz" Inactive 20211101;
     mkPerson 2 12345678 "Ana" "Diaz" Active 20211102].

(** [twoStore] with its vaccines held in another order. *)
Definition shuffledStore : Store :=
  mkStore (persons twoStore) (employees twoStore) (users twoStore)
          (userRoles twoStore) (roles twoStore)
          (employeeVaccinations twoStore)
          [mkVaccine 3 "Pfizer" Inactive; mkVaccine 2 "AstraZeneca" Active;
           mkVaccine 1 "Sputnik" Active].


(** ** Vocabulary of the further properties *)

(** What the arguments of [getEmployee] ask of an employee: the Active
    scope, and one requirement per truthy argument. *)
Definition narrowedBy (dni : option Z) (email : option string)
    (employeeId : option Z) (e : EmployeeEntity) : Prop :=
  employee_status (employee_cols e) = Active
  /\ (forall d, dni = Some d -> d <> 0 ->
        exists p, employee_person e = Some p /\ person_dni p = d)
  /\ (forall s, email = Some s -> s <> ""%string ->
        employee_email (employee_cols e) = s)
  /\ (forall k, employeeId = Some k -> k <> 0 ->
        employee_id (employee_cols e) = k).

(** A user role of user [u] in a joined graph: Active, linked to the user,
    and its role, when joined, is the Active role the row points to. *)
Definition userRoleJoined (u : UserColumns) (ur : UserRoleEntity) : Prop :=
  userRole_status (userRole_cols ur) = Active
  /\ userRole_userId (userRole_cols ur) = user_id u
  /\ (forall ro, userRole_role ur = Some ro ->
        role_status ro = Active
        /\ userRole_roleId (userRole_cols ur) = Some (role_id ro)).

Definition vaccinationJoined (r : EmployeeColumns)
    (ev : EmployeeVaccinationEntity) : Prop :=
  employeeVaccination_status (employeeVaccination_cols ev) = Active
  /\ employeeVaccination_employeeId (employeeVaccination_cols ev)
     = employee_id r
  /\ (forall v, employeeVaccination_vaccine ev = Some v ->
        vaccine_status v = Active
        /\ vaccine_id v
           = employeeVaccination_vaccineId (employeeVaccination_cols ev)).

(** Every relation of a joined employee is Active and linked by its key. *)
Definition graphActive (e : EmployeeEntity) : Prop :=
  (forall p, employee_person e = Some p ->
     person_status p = Active
     /\ person_id p = employee_personId (employee_cols e))
  /\ (forall u, employee_user e = Some u ->
        user_status (user_cols u) = Active
        /\ user_employeeId (user_cols u) = employee_id (employee_cols e)
        /\ exists urs, user_userRoles u = Some urs
                       /\ Forall (userRoleJoined (user_cols u)) urs)
  /\ (exists evs, employee_employeeVaccinations e = Some evs
                  /\ Forall (vaccinationJoined (employee_cols e)) evs).

(** Referential integrity of the rows that hang off an employee, a user or
    a person: each foreign key names a row that exists. *)
Definition keysResolve (st : Store) : bool :=
  forallb (fun r => existsb (fun p => person_id p =? employee_personId r)
                            (persons st)) (employees st)
  && forallb (fun u => existsb (fun r => employee_id r =? user_employeeId u)
                               (employees st)) (users st)
  && forallb (fun ur => existsb (fun u => user_id u =? userRole_userId ur)
                                (users st)) (userRoles st)
  && forallb (fun ev => existsb (fun r => employee_id r
                                          =? employeeVaccination_employeeId ev)
                                (employees st)) (employeeVaccinations st).

(** An employee status either stays or goes to Inactive. *)
Definition statusKeptOrInactive (r r' : EmployeeColumns) : Prop :=
  employee_status r' = employee_status r \/ employee_status r' = Inactive.

(** What [updateEmployee] leaves alone, whatever it is called with. *)
Definition updateFrame (st st' : Store) : Prop :=
  map employee_id (employees st') = map employee_id (employees st)
  /\ map employee_personId (employees st')
     = map employee_personId (employees st)
  /\ map employee_createdDate (employees st')
     = map employee_createdDate (employees st)
  /\ Forall2 statusKeptOrInactive (employees st) (employees st')
  /\ map person_id (persons st') = map person_id (persons st)
  /\ map person_status (persons st') = map person_status (persons st)
  /\ map user_id (users st') = map user_id (users st)
  /\ map user_password (users st') = map user_password (users st)
  /\ map user_status (users st') = map user_status (users st)
  /\ map user_employeeId (users st') = map user_employeeId (users st)
  /\ userRoles st' = userRoles st
  /\ roles st' = roles st
  /\ employeeVaccinations st' = employeeVaccinations st
  /\ vaccines st' = vaccines st.

(** The rows [createEmploye] adds: one per table, Active, each linked to
    the one before, the user holding the email and the dni in clear. *)
Definition createdRows (dto : CreateEmployeeDto) (now : Z) (st st' : Store)
    (p : PersonEntity) (e : EmployeeColumns) (u : UserColumns)
    (ur : UserRoleColumns) : Prop :=
  persons st' = persons st ++ [p]
  /\ employees st' = employees st ++ [e]
  /\ users st' = users st ++ [u]
  /\ userRoles st' = userRoles st ++ [ur]
  /\ roles st' = roles st
  /\ employeeVaccinations st' = employeeVaccinations st
  /\ vaccines st' = vaccines st
  /\ p = mkPerson (nextId (map person_id (persons st))) (c_dni dto)
                  (c_firstName dto) (c_lastName dto) Active now
  /\ e = mkEmployee (nextId (map employee_id (employees st))) (c_email dto)
                    (c_birthDate dto) (c_homeAddress dto) (c_mobilePhone dto)
                    (c_vaccinationStatus dto) Active now (person_id p)
  /\ u = mkUser (nextId (map user_id (users st))) (c_email dto)
                (String_ (c_dni dto)) Active now (employee_id e)
  /\ ur = mkUserRole (nextId (map userRole_id (userRoles st))) Active now
                     (user_id u)
                     (option_map role_id
                        (find (fun ro => (role_name ro =? c_role dto)%string)
                              (roles st))).

(** [keysResolve] read off the key columns alone. *)
Definition keysResolveColumns (personIds employeePersonIds employeeIds
    userEmployeeIds userIds userRoleUserIds vaccinationEmployeeIds : list Z)
  : bool :=
  forallb (fun k => existsb (fun i => i =? k) personIds) employeePersonIds
  && forallb (fun k => existsb (fun i => i =? k) employeeIds) userEmployeeIds
  && forallb (fun k => existsb (fun i => i =? k) userIds) userRoleUserIds
  && forallb (fun k => existsb (fun i => i =? k) employeeIds)
             vaccinationEmployeeIds.


(** * Properties *)

(** ** Filter builder *)

Lemma filterEmployees_app q f :
  filterEmployees q f = q ++ filterEmployees [] f.
Proof.
  unfold filterEmployees, andWhere.
  destruct (truthy (f_dni f)), (truthy (f_email f)),
    (truthy (f_completeName f)), (truthy (f_vaccine f)),
    (truthy (f_isVaccinated f)),
    (truthy (f_startDate f) && truthy (f_finishDate f));
    cbn [app]; repeat rewrite <- app_assoc; cbn [app];
    try rewrite app_nil_r; reflexivity.
Qed.

Lemma appended_eq q f : appended q f = filterEmployees [] f.
Proof.
  unfold appended. rewrite filterEmployees_app.
  rewrite skipn_app, skipn_all, Nat.sub_diag. reflexivity.
Qed.

(** C1. For every builder and every filter object, [filterEmployees] keeps
    the conditions already present and appends exactly one condition for
    each truthy field among dni, email, completeName, vaccine and
    isVaccinated, none for the empty filter object, and the vaccinationDate
    range condition exactly when startDate and finishDate are both truthy;
    one of the two dates alone adds no date condition, and a list query
    with the empty filter object carries the Active scope alone, like the
    unfiltered one. *)
Theorem filterEmployees_one_condition_per_field
    (q : SelectQueryBuilder)
    (dni email completeName vaccine isVaccinated startDate finishDate : jsval) :
  let f := mkFilter dni email completeName vaccine isVaccinated
                    startDate finishDate in
  filterEmployees q f = q ++ appended q f
  /\ List.length (appended q f)
     = (b2n (truthy dni) + b2n (truthy email) + b2n (truthy completeName)
        + b2n (truthy vaccine) + b2n (truthy isVaccinated)
        + b2n (truthy startDate && truthy finishDate))%nat
  /\ countField FDni (appended q f) = b2n (truthy dni)
  /\ countField FEmail (appended q f) = b2n (truthy email)
  /\ countField FCompleteName (appended q f) = b2n (truthy completeName)
  /\ countField FVaccine (appended q f) = b2n (truthy vaccine)
  /\ countField FIsVaccinated (appended q f) = b2n (truthy isVaccinated)
  /\ countField FDateRange (appended q f)
     = b2n (truthy startDate && truthy finishDate)
  /\ appended q emptyFilter = []
  /\ getEmployeesQuery (Some emptyFilter) = getEmployeesQuery None
  /\ countField FDateRange
       (appended q (mkFilter dni email completeName vaccine isVaccinated
                             startDate JUndefined)) = 0%nat
  /\ countField FDateRange
       (appended q (mkFilter dni email completeName vaccine isVaccinated
                             JUndefined finishDate)) = 0%nat.
Proof.
  intro f. subst f.
  rewrite !appended_eq.
  split; [apply filterEmployees_app|].
  unfold filterEmployees, andWhere, countField; cbn [f_dni f_email
    f_completeName f_vaccine f_isVaccinated f_startDate f_finishDate].
  change (truthy JUndefined) with false.
  destruct (truthy dni), (truthy email), (truthy completeName),
    (truthy vaccine), (truthy isVaccinated),
    (truthy startDate), (truthy finishDate);
    cbn; repeat split; reflexivity.
Qed.

(** ** Projection *)

Lemma lengthGt0_false_map {A B} (f : A -> B) (xs : option (list A)) :
  (if lengthGt0 xs then option_map (map f) xs else None) <> Some [].
Proof.
  destruct xs as [[|x l]|]; cbn; discriminate.
Qed.

Lemma mapEmployee_nullWhenEmpty e r :
  mapEmployee e = Ok r -> nullWhenEmpty e r.
Proof.
  unfold mapEmployee, nullWhenEmpty.
  destruct (employee_person e); [|discriminate].
  intros [= <-]; cbn. repeat split.
  - intros ->. reflexivity.
  - intros ->. reflexivity.
  - apply lengthGt0_false_map.
  - apply lengthGt0_false_map.
Qed.

Lemma mapEmployees_Forall2 es :
  forall rs, mapEmployees es = Ok rs -> Forall2 nullWhenEmpty es rs.
Proof.
  induction es as [|e es IH]; cbn; intros rs H.
  - injection H as <-. constructor.
  - destruct (mapEmployee e) as [r|] eqn:He; [|discriminate].
    destruct (mapEmployees es) as [rs'|]; [|discriminate].
    injection H as <-. constructor.
    + now apply mapEmployee_nullWhenEmpty.
    + now apply IH.
Qed.

Lemma mapEmployees_total es :
  Forall (fun e => employee_person e <> None) es ->
  exists rs, mapEmployees es = Ok rs.
Proof.
  induction 1 as [|e es He _ [rs IH]]; cbn.
  - now exists [].
  - unfold mapEmployee. destruct (employee_person e); [|congruence].
    rewrite IH. eauto.
Qed.

Lemma myInformation_inv dni st r st' :
  myInformation dni st = (Ok r, st') ->
  st' = st /\
  exists e, getOne st (getEmployeeQuery (Some dni) None None) = Some e
            /\ mapEmployee e = Ok r.
Proof.
  unfold myInformation, bind, getEmployee, gets.
  destruct (getOne st _) as [e|]; [|discriminate].
  destruct (employee_person e) as [p|] eqn:Hp; [|discriminate].
  unfold ret. intros [= <- <-]. split; [reflexivity|].
  exists e. split; [reflexivity|].
  unfold mapEmployee. rewrite Hp. reflexivity.
Qed.

Lemma filter_none {A} (f : A -> bool) (l : list A) :
  (forall x, In x l -> f x = false) -> filter f l = [].
Proof.
  induction l as [|a l IH]; cbn; intros H; [reflexivity|].
  rewrite (H a) by now left. apply IH. intros x Hx. apply H. now right.
Qed.

Lemma join_no_vaccinations st er :
  (forall ev, In ev (employeeVaccinations st) ->
              employeeVaccination_employeeId ev = employee_id er ->
              employeeVaccination_status ev = Inactive) ->
  employee_employeeVaccinations (joinEmployee st er) = Some [].
Proof.
  intros H. cbn. unfold joinEmployeeVaccinations.
  rewrite filter_none; [reflexivity|].
  intros ev Hin.
  destruct (employeeVaccination_employeeId ev =? employee_id er) eqn:E;
    [|reflexivity].
  apply Z.eqb_eq in E. rewrite (H ev Hin E). reflexivity.
Qed.

Lemma join_no_userRoles st er :
  (forall u ur, In u (users st) -> user_employeeId u = employee_id er ->
                In ur (userRoles st) -> userRole_userId ur = user_id u ->
                userRole_status ur = Inactive) ->
  lengthGt0 (userRolesOf (joinEmployee st er)) = false.
Proof.
  intros H. unfold userRolesOf, joinEmployee, joinUser; cbn.
  destruct (find _ (users st)) as [u|] eqn:Hu; cbn; [|reflexivity].
  apply find_some in Hu. destruct Hu as [Hin Hu].
  apply andb_prop in Hu. destruct Hu as [Hid _]. apply Z.eqb_eq in Hid.
  unfold joinUserRoles. rewrite filter_none; [reflexivity|].
  intros ur Hur.
  destruct (userRole_userId ur =? user_id u) eqn:E; [|reflexivity].
  apply Z.eqb_eq in E. rewrite (H u ur Hin Hid Hur E). reflexivity.
Qed.

(** C2. The projection of [mapEmployees] and of [myInformation] yields
    [vaccines = null] for an employee with no active EmployeeVaccination
    row and [roles = null] when the user has no active UserRole row, and it
    never yields an empty sequence for either; it returns a record for every
    employee whose person is joined. *)
Theorem projection_null_never_empty :
  (forall es rs, mapEmployees es = Ok rs -> Forall2 nullWhenEmpty es rs)
  /\ (forall es, Forall (fun e => employee_person e <> None) es ->
                 exists rs, mapEmployees es = Ok rs)
  /\ (forall dni st r st',
        myInformation dni st = (Ok r, st') ->
        exists e, getOne st (getEmployeeQuery (Some dni) None None) = Some e
                  /\ nullWhenEmpty e r)
  /\ (forall dni st e,
        getOne st (getEmployeeQuery (Some dni) None None) = Some e ->
        employee_person e <> None ->
        exists r, myInformation dni st = (Ok r, st) /\ nullWhenEmpty e r)
  /\ (forall st er,
        (forall ev, In ev (employeeVaccinations st) ->
                    employeeVaccination_employeeId ev = employee_id er ->
                    employeeVaccination_status ev = Inactive) ->
        lengthGt0 (employee_employeeVaccinations (joinEmployee st er)) = false)
  /\ (forall st er,
        (forall u ur, In u (users st) -> user_employeeId u = employee_id er ->
                      In ur (userRoles st) -> userRole_userId ur = user_id u ->
                      userRole_status ur = Inactive) ->
        lengthGt0 (userRolesOf (joinEmployee st er)) = false).
Proof.
  split; [exact mapEmployees_Forall2|].
  split; [exact mapEmployees_total|].
  split.
  { intros dni st r st' H. apply myInformation_inv in H.
    destruct H as (_ & e & He & Hr). exists e. split; [exact He|].
    now apply mapEmployee_nullWhenEmpty. }
  split.
  { intros dni st e He Hp.
    destruct (mapEmployee e) as [r|err] eqn:Hr.
    - exists r. split; [|now apply mapEmployee_nullWhenEmpty].
      unfold myInformation, bind, getEmployee, gets. rewrite He.
      unfold mapEmployee in Hr.
      destruct (employee_person e); [|congruence].
      injection Hr as <-. reflexivity.
    - unfold mapEmployee in Hr. destruct (employee_person e); congruence. }
  split.
  { intros st er H. rewrite (join_no_vaccinations st er H). reflexivity. }
  exact join_no_userRoles.
Qed.

(** ** Single-employee lookup *)

Lemma find_map {A B} (g : A -> B) (f : B -> bool) (l : list A) :
  find f (map g l) = option_map g (find (fun x => f (g x)) l).
Proof.
  induction l as [|a l IH]; cbn; [reflexivity|].
  destruct (f (g a)); [reflexivity|exact IH].
Qed.

Lemma getOne_rows st q :
  getOne st q =
  option_map (joinEmployee st)
    (find (fun r => forallb (fun c => evalCond c (joinEmployee st r)) q)
          (employees st)).
Proof. unfold getOne, createQueryBuilder. apply find_map. Qed.

Lemma getEmployeeQuery_falsy dni email employeeId :
  truthyNum dni = false -> truthyStr email = false ->
  truthyNum employeeId = false ->
  getEmployeeQuery dni email employeeId = [C_status_active].
Proof.
  unfold getEmployeeQuery. intros -> -> ->.
  destruct dni, email, employeeId; reflexivity.
Qed.

Lemma getEmployeeQuery_dni dni :
  dni <> 0 ->
  getEmployeeQuery (Some dni) None None = [C_status_active; C_person_dni dni].
Proof.
  intros H. unfold getEmployeeQuery, truthyNum.
  apply Z.eqb_neq in H. rewrite H. reflexivity.
Qed.

Lemma isActive_true s : isActive s = true <-> s = Active.
Proof. destruct s; cbn; split; congruence. Qed.

Lemma find_first {A} (f : A -> bool) pre x post :
  Forall (fun y => f y = false) pre -> f x = true ->
  find f (pre ++ x :: post) = Some x.
Proof.
  induction 1 as [|y pre Hy _ IH]; cbn; intros Hx.
  - now rewrite Hx.
  - rewrite Hy. now apply IH.
Qed.

Lemma find_pointwise {A} (f g : A -> bool) (l : list A) :
  (forall x, f x = g x) -> find f l = find g l.
Proof.
  intros H. induction l as [|a l IH]; cbn; [reflexivity|].
  rewrite H, IH. reflexivity.
Qed.

Lemma find_exists {A} (f : A -> bool) l x :
  In x l -> f x = true -> exists y, find f l = Some y.
Proof.
  intros Hin Hx. destruct (find f l) as [y|] eqn:E; [eauto|].
  now rewrite (find_none _ _ E x Hin) in Hx.
Qed.

(** What a lookup narrowed by a truthy dni returns. *)
Lemma getOne_by_dni_sound st dni e :
  dni <> 0 ->
  getOne st (getEmployeeQuery (Some dni) None None) = Some e ->
  exists r p, In r (employees st) /\ e = joinEmployee st r
              /\ employee_status r = Active
              /\ employee_person e = Some p /\ person_dni p = dni.
Proof.
  intros Hd. rewrite (getEmployeeQuery_dni dni Hd), getOne_rows.
  destruct (find _ (employees st)) as [r|] eqn:Hf; [|discriminate].
  cbn. intros [= <-]. apply find_some in Hf. destruct Hf as [Hin Hc].
  cbn in Hc. rewrite andb_true_r in Hc. apply andb_prop in Hc.
  destruct Hc as [Ha Hp]. apply isActive_true in Ha.
  destruct (joinPerson st r) as [p|] eqn:Hj; [|discriminate].
  apply Z.eqb_eq in Hp. exists r, p. cbn. rewrite Hj. auto.
Qed.

Lemma getOne_by_dni_complete st dni r p :
  dni <> 0 -> In r (employees st) -> employee_status r = Active ->
  joinPerson st r = Some p -> person_dni p = dni ->
  exists e, getOne st (getEmployeeQuery (Some dni) None None) = Some e.
Proof.
  intros Hd Hin Ha Hj Hp.
  rewrite (getEmployeeQuery_dni dni Hd), getOne_rows.
  destruct (find_exists
              (fun r => forallb (fun c => evalCond c (joinEmployee st r))
                                [C_status_active; C_person_dni dni])
              (employees st) r Hin) as [y Hy].
  - cbn. rewrite Hj, Ha, Hp, Z.eqb_refl. reflexivity.
  - rewrite Hy. cbn. eauto.
Qed.

(** C10. Called with every narrowing argument absent or falsy, [getEmployee]
    attaches no condition beyond the Active scope and returns the first
    active employee in storage order; it returns an employee as soon as one
    active employee exists. *)
Theorem getEmployee_falsy_arguments_first_active
    (st : Store) (dni : option Z) (email : option string)
    (employeeId : option Z) :
  truthyNum dni = false -> truthyStr email = false ->
  truthyNum employeeId = false ->
  getEmployeeQuery dni email employeeId = [C_status_active]
  /\ getEmployee dni email employeeId st
     = (Ok (option_map (joinEmployee st)
              (find (fun r => isActive (employee_status r)) (employees st))),
        st)
  /\ (forall pre r post,
        employees st = pre ++ r :: post ->
        Forall (fun x => employee_status x = Inactive) pre ->
        employee_status r = Active ->
        getEmployee dni email employeeId st
        = (Ok (Some (joinEmployee st r)), st))
  /\ (forall r, In r (employees st) -> employee_status r = Active ->
        exists e, getEmployee dni email employeeId st = (Ok (Some e), st)
                  /\ employee_status (employee_cols e) = Active).
Proof.
  intros Hd He Hi.
  pose proof (getEmployeeQuery_falsy dni email employeeId Hd He Hi) as Hq.
  assert (Hget : getEmployee dni email employeeId st
     = (Ok (option_map (joinEmployee st)
              (find (fun r => isActive (employee_status r)) (employees st))),
        st)).
  { unfold getEmployee, gets. rewrite Hq, getOne_rows. cbn.
    do 3 f_equal. apply find_pointwise. intros r. apply andb_true_r. }
  split; [exact Hq|]. split; [exact Hget|]. split.
  - intros pre r post Hs Hpre Hr. rewrite Hget, Hs.
    rewrite find_first; [reflexivity| |now rewrite Hr].
    eapply Forall_impl; [|exact Hpre]. cbn. intros x ->. reflexivity.
  - intros r Hin Hr. rewrite Hget.
    destruct (find_exists (fun r => isActive (employee_status r))
                          (employees st) r Hin) as [y Hy].
    + now rewrite Hr.
    + rewrite Hy. cbn. eexists. split; [reflexivity|]. cbn.
      apply find_some in Hy. now apply isActive_true.
Qed.

(** ** Soft delete *)

Lemma Forall2_map_same {A} (P : A -> A -> Prop) (f : A -> A) (l : list A) :
  (forall x, P x (f x)) -> Forall2 P l (map f l).
Proof.
  intros H. induction l; cbn; constructor; auto.
Qed.

Lemma patch_status_softDeleted id r :
  softDeleted id r
    (if employee_id r =? id
     then patchEmployee (mkEmployeePartial None None None None None
                                           (Some Inactive)) r
     else r).
Proof.
  unfold softDeleted. destruct (employee_id r =? id); cbn; repeat split.
Qed.

(** C5. For an active employee whose person carries the (non-zero) dni, a
    DELETE by an ADMINISTRATOR locates an active employee by that dni,
    returns the confirmation with its id, name, dni and email, sets the
    status of that employee to Inactive and changes nothing else: no other
    column of any employee row, and no row of the persons, users, user
    roles or any other table. *)
Theorem updateEmployee_delete_only_status
    (st : Store) (dni : Z) (dto : option UpdateEmployeeDto)
    (r : EmployeeColumns) (p : PersonEntity) :
  dni <> 0 ->
  In r (employees st) -> employee_status r = Active ->
  joinPerson st r = Some p -> person_dni p = dni ->
  exists e q st',
    getOne st (getEmployeeQuery (Some dni) None None) = Some e
    /\ employee_status (employee_cols e) = Active
    /\ employee_person e = Some q /\ person_dni q = dni
    /\ updateEmployee dni (Some User_ADMINISTRATOR) (Some Type_DELETE) dto st
       = (Ok (Deleted "The employee has been deleted successfully"
                      (employee_id (employee_cols e)) "Inactive"
                      (person_firstName q ++ " " ++ person_lastName q)%string
                      (person_dni q) (employee_email (employee_cols e))),
          st')
    /\ Forall2 (softDeleted (employee_id (employee_cols e)))
               (employees st) (employees st')
    /\ sameOtherTables st st'.
Proof.
  intros Hd Hin Ha Hj Hp.
  destruct (getOne_by_dni_complete st dni r p Hd Hin Ha Hj Hp) as [e He].
  destruct (getOne_by_dni_sound st dni e Hd He)
    as (r' & q & Hin' & -> & Ha' & Hq & Hdni).
  exists (joinEmployee st r'), q.
  eexists. split; [exact He|]. split; [exact Ha'|].
  split; [exact Hq|]. split; [exact Hdni|]. split.
  - unfold updateEmployee, bind, getEmployee, gets. rewrite He.
    assert (Ht : truthyNum (Some dni) = true).
    { cbn. apply Z.eqb_neq in Hd. now rewrite Hd. }
    rewrite Ht. unfold strictEq. rewrite !String.eqb_refl. cbn [andb].
    unfold softDelete, bind, employeeRepository_update, modify.
    rewrite Hq. unfold ret. reflexivity.
  - split.
    + cbn. apply Forall2_map_same. intros x. apply patch_status_softDeleted.
    + repeat split.
Qed.

(** ** Failing updates *)

Lemma updateEmployee_not_found_when_no_branch st dni role type dto :
  truthyNum (Some dni) && strictEq type Type_DELETE
    && strictEq role User_ADMINISTRATOR = false ->
  truthyNum (Some dni) && strictEq type Type_UPDATE = false ->
  updateEmployee dni role type dto st = (Err employeeNotFound, st).
Proof.
  intros H1 H2. unfold updateEmployee, bind, getEmployee, gets.
  destruct (getOne st _); [|reflexivity].
  rewrite H1, H2. reflexivity.
Qed.

Lemma strictEq_true x c : strictEq x c = true <-> x = Some c.
Proof.
  destruct x as [s|]; cbn.
  - rewrite String.eqb_eq. split; congruence.
  - split; discriminate.
Qed.

Lemma strictEq_false x c : x <> Some c -> strictEq x c = false.
Proof.
  intros H. destruct (strictEq x c) eqn:E; [|reflexivity].
  apply strictEq_true in E. contradiction.
Qed.

(** C8. [updateEmployee] fails with employee-not-found and leaves the store
    as it was when no active employee has a person with the given dni, and
    also, whatever the store holds, for every type and role other than
    DELETE by an ADMINISTRATOR and UPDATE; in particular a DELETE by a
    caller who is not an ADMINISTRATOR fails that way and changes no
    status. *)
Theorem updateEmployee_not_found
    (st : Store) (dni : Z) (role type : option string)
    (dto : option UpdateEmployeeDto) :
  ((forall r p, In r (employees st) -> employee_status r = Active ->
                joinPerson st r = Some p -> person_dni p <> dni) ->
   updateEmployee dni role type dto st = (Err employeeNotFound, st))
  /\ (~ (type = Some Type_DELETE /\ role = Some User_ADMINISTRATOR) ->
      type <> Some Type_UPDATE ->
      updateEmployee dni role type dto st = (Err employeeNotFound, st))
  /\ (role <> Some User_ADMINISTRATOR ->
      updateEmployee dni role (Some Type_DELETE) dto st
      = (Err employeeNotFound, st)).
Proof.
  split; [|split].
  - intros Hno. destruct (Z.eq_dec dni 0) as [->|Hd].
    + apply updateEmployee_not_found_when_no_branch; reflexivity.
    + unfold updateEmployee, bind, getEmployee, gets.
      destruct (getOne st _) as [e|] eqn:He; [|reflexivity].
      destruct (getOne_by_dni_sound st dni e Hd He)
        as (r & p & Hin & -> & Ha & Hp & Hdni).
      cbn in Hp. now destruct (Hno r p Hin Ha Hp).
  - intros Hdel Hupd.
    apply updateEmployee_not_found_when_no_branch.
    + destruct (strictEq type Type_DELETE) eqn:E1;
        [|now rewrite andb_false_r].
      destruct (strictEq role User_ADMINISTRATOR) eqn:E2;
        [|now rewrite andb_false_r].
      apply strictEq_true in E1, E2. now destruct Hdel.
    + rewrite (strictEq_false type Type_UPDATE Hupd). apply andb_false_r.
  - intros Hrole.
    apply updateEmployee_not_found_when_no_branch.
    + rewrite (strictEq_false role User_ADMINISTRATOR Hrole).
      apply andb_false_r.
    + cbn. apply andb_false_r.
Qed.

(** ** Creation *)

Lemma find_all_false {A} (f : A -> bool) (l : list A) :
  (forall x, In x l -> f x = false) -> find f l = None.
Proof.
  induction l as [|a l IH]; cbn; intros H; [reflexivity|].
  rewrite (H a) by now left. apply IH. intros x Hx. apply H. now right.
Qed.

Lemma getPerson_found st dni :
  (exists p, In p (persons st) /\ person_dni p = dni) ->
  exists p, find (fun p => person_dni p =? dni) (persons st) = Some p.
Proof.
  intros (p & Hin & Hp). apply (find_exists _ _ p Hin).
  now apply Z.eqb_eq.
Qed.

Lemma getPerson_none st dni :
  (forall p, In p (persons st) -> person_dni p <> dni) ->
  find (fun p => person_dni p =? dni) (persons st) = None.
Proof.
  intros H. apply find_all_false. intros p Hin. apply Z.eqb_neq. now apply H.
Qed.

(** The email lookup of [createEmploye] finds a row as soon as an active
    employee carries the email. *)
Lemma getOne_by_email_complete st email :
  (exists e, In e (employees st) /\ employee_status e = Active
             /\ employee_email e = email) ->
  exists e, getOne st (getEmployeeQuery None (Some email) None) = Some e.
Proof.
  intros (r & Hin & Ha & He). rewrite getOne_rows.
  destruct (find_exists
              (fun r => forallb (fun c => evalCond c (joinEmployee st r))
                                (getEmployeeQuery None (Some email) None))
              (employees st) r Hin) as [y Hy].
  - unfold getEmployeeQuery. destruct (truthyStr (Some email)); cbn;
      rewrite Ha; cbn; [|reflexivity].
    rewrite He, String.eqb_refl. reflexivity.
  - rewrite Hy. cbn. eauto.
Qed.

(** [createEmploye] once its three reads are known. *)
Lemma createEmploye_reads dto now st :
  createEmploye dto now st =
  if isSome (find (fun p => person_dni p =? c_dni dto) (persons st))
  then (Err dniExist, st)
  else if isSome (getOne st (getEmployeeQuery None (Some (c_email dto)) None))
  then (Err emailExist, st)
  else if negb (validateID (String_ (c_dni dto)))
  then (Err invalidDni, st)
  else
    (savedPerson <- PersonService_createPerson (c_dni dto) (c_firstName dto)
                      (c_lastName dto) now ;;
     savedEmployee <- employeeRepository_save (c_email dto) (c_birthDate dto)
                        (c_homeAddress dto) (c_mobilePhone dto)
                        (c_vaccinationStatus dto) now savedPerson ;;
     savedUser <- UserService_createUser (c_email dto) (String_ (c_dni dto))
                    now savedEmployee ;;
     savedUserRole <- UserRoleService_createUserRole savedUser
                        (find (fun r => (role_name r =? c_role dto)%string)
                              (roles st))
                        now ;;
     liftR (mapCreateEmployee savedEmployee savedUserRole)) st.
Proof.
  unfold createEmploye, bind at 1 2 3, PersonService_getPerson, getEmployee,
    RoleService_getRole, gets.
  destruct (isSome (find _ (persons st))); [reflexivity|].
  destruct (isSome (getOne st _)); [reflexivity|].
  destruct (negb _); reflexivity.
Qed.

(** C3, as the code has it. [createEmploye] rejects with dni-exist when a
    Person with the dto's dni exists, with email-exist when no such Person
    exists and the email lookup finds a row, which it does whenever an
    active Employee carries the dto's email, and with invalid-dni when
    neither lookup finds a row and the validator rejects the dni; every
    rejection leaves the store as it was. *)
Theorem createEmploye_rejections_in_order
    (dto : CreateEmployeeDto) (now : Z) (st : Store) :
  ((exists p, In p (persons st) /\ person_dni p = c_dni dto) ->
   createEmploye dto now st = (Err dniExist, st))
  /\ ((forall p, In p (persons st) -> person_dni p <> c_dni dto) ->
      (exists e, In e (employees st) /\ employee_status e = Active
                 /\ employee_email e = c_email dto) ->
      createEmploye dto now st = (Err emailExist, st))
  /\ ((forall p, In p (persons st) -> person_dni p <> c_dni dto) ->
      getOne st (getEmployeeQuery None (Some (c_email dto)) None) <> None ->
      createEmploye dto now st = (Err emailExist, st))
  /\ ((forall p, In p (persons st) -> person_dni p <> c_dni dto) ->
      getOne st (getEmployeeQuery None (Some (c_email dto)) None) = None ->
      validateID (String_ (c_dni dto)) = false ->
      createEmploye dto now st = (Err invalidDni, st))
  /\ (forall e st', createEmploye dto now st = (Err e, st') -> st' = st).
Proof.
  rewrite createEmploye_reads.
  repeat split.
  - intros H. destruct (getPerson_found st _ H) as [p ->]. reflexivity.
  - intros Hp He. rewrite (getPerson_none st _ Hp). cbn [isSome].
    destruct (getOne_by_email_complete st _ He) as [e ->]. reflexivity.
  - intros Hp He. rewrite (getPerson_none st _ Hp). cbn [isSome].
    destruct (getOne st _); [reflexivity|congruence].
  - intros Hp He Hv. rewrite (getPerson_none st _ Hp), He, Hv. reflexivity.
  - intros e st'.
    destruct (isSome (find _ (persons st))); [congruence|].
    destruct (isSome (getOne st _)); [congruence|].
    destruct (negb _); [congruence|].
    cbn. discriminate.
Qed.

(** C4. On every successful [createEmploye] call the store gains one User
    whose username is the dto's email and whose password is the dto's dni
    as a plain decimal string, and the returned record carries the
    employee's scalar fields, that username, that password and the name of
    the role that the dto's role argument resolves to. *)
Theorem createEmploye_success_record
    (dto : CreateEmployeeDto) (now : Z) (st st' : Store)
    (r : CreateEmployee) :
  createEmploye dto now st = (Ok r, st') ->
  (exists u, users st' = users st ++ [u]
             /\ user_username u = c_email dto
             /\ user_password u = String_ (c_dni dto)
             /\ user_employeeId u = ce_id r)
  /\ ce_username r = Some (c_email dto)
  /\ ce_password r = Some (String_ (c_dni dto))
  /\ ce_role r = option_map role_name
                   (find (fun ro => (role_name ro =? c_role dto)%string)
                         (roles st))
  /\ (forall ro, In ro (roles st) -> role_name ro = c_role dto ->
                 ce_role r = Some (c_role dto))
  /\ ce_id r = nextId (map employee_id (employees st))
  /\ ce_dni r = c_dni dto
  /\ ce_firstName r = c_firstName dto
  /\ ce_lastName r = c_lastName dto
  /\ ce_birthDate r = c_birthDate dto
  /\ ce_homeAddress r = c_homeAddress dto
  /\ ce_mobilePhone r = c_mobilePhone dto
  /\ ce_status r = "Active"%string.
Proof.
  rewrite createEmploye_reads.
  destruct (isSome (find _ (persons st))); [discriminate|].
  destruct (isSome (getOne st _)); [discriminate|].
  destruct (negb _); [discriminate|].
  cbn. intros [= <- <-]. cbn.
  split; [eexists; repeat split|].
  repeat split.
  intros ro Hin Hname.
  destruct (find_exists (fun ro => (role_name ro =? c_role dto)%string)
                        (roles st) ro Hin) as [y Hy].
  - now apply String.eqb_eq.
  - rewrite Hy. cbn. apply find_some in Hy. destruct Hy as [_ Hy].
    apply String.eqb_eq in Hy. now rewrite Hy.
Qed.

(** ** Update *)

Lemma updateEmployee_update_branch st dni role dto e :
  dni <> 0 ->
  getOne st (getEmployeeQuery (Some dni) None None) = Some e ->
  updateEmployee dni role (Some Type_UPDATE) dto st = applyUpdate e dto st.
Proof.
  intros Hd He. unfold updateEmployee, bind, getEmployee, gets. rewrite He.
  assert (Ht : truthyNum (Some dni) = true).
  { cbn. apply Z.eqb_neq in Hd. now rewrite Hd. }
  rewrite Ht. reflexivity.
Qed.

(** An update whose dni the validator rejects and that carries no password
    goes through: the person's dni is not written, the names are. *)
Lemma updateEmployee_invalid_dni_dropped st dni role dto e :
  dni <> 0 ->
  getOne st (getEmployeeQuery (Some dni) None None) = Some e ->
  validateID (StringOpt (u_dni dto)) = false ->
  truthyStr (u_password dto) = false ->
  exists st',
    updateEmployee dni role (Some Type_UPDATE) (Some dto) st
    = (Ok (Updated "The employee has been updated successfully" dto), st')
    /\ persons st'
       = map (fun r =>
                if idIs (option_map person_id (employee_person e)) (person_id r)
                then patchPerson
                       (mkPersonPartial None (u_firstName dto) (u_lastName dto))
                       r
                else r)
             (persons st).
Proof.
  intros Hd He Hv Hp.
  rewrite (updateEmployee_update_branch st dni role (Some dto) e Hd He).
  unfold applyUpdate. rewrite Hv, Hp.
  eexists. split; reflexivity.
Qed.

(** C7, on the code. Whenever the update dto carries a password, the update
    of a located employee stops at the hashing step: what is handed to
    bcrypt is the password field of the freshly built user entity, which is
    undefined, so the call is rejected and no user row is written. *)
Theorem updateEmployee_password_is_not_hashed
    (st : Store) (dni : Z) (role : option string) (dto : UpdateEmployeeDto)
    (e : EmployeeEntity) :
  dni <> 0 ->
  getOne st (getEmployeeQuery (Some dni) None None) = Some e ->
  truthyStr (u_password dto) = true ->
  exists st',
    updateEmployee dni role (Some Type_UPDATE) (Some dto) st
    = (Err (BcryptError "data and salt arguments required"), st')
    /\ users st' = users st.
Proof.
  intros Hd He Hp.
  rewrite (updateEmployee_update_branch st dni role (Some dto) e Hd He).
  unfold applyUpdate. rewrite Hp.
  eexists. split; reflexivity.
Qed.

(** ** Vaccine lookup *)

Lemma insertBy_perm v vs : Permutation (v :: vs) (insertBy v vs).
Proof.
  induction vs as [|w vs IH]; cbn; [reflexivity|].
  destruct (collate _ _); [reflexivity|].
  rewrite perm_swap. now apply perm_skip.
Qed.

Lemma orderBy_perm vs : Permutation vs (orderBy vs).
Proof.
  induction vs as [|v vs IH]; cbn; [reflexivity|].
  rewrite <- insertBy_perm. now apply perm_skip.
Qed.

Lemma insertBy_ascending v vs :
  (forall a b, collate a b = true \/ collate b a = true) ->
  (forall a b c, collate a b = true -> collate b c = true ->
                 collate a c = true) ->
  ascending vs -> ascending (insertBy v vs).
Proof.
  intros collate_total collate_trans.
  induction vs as [|w vs IH]; cbn; intros H.
  - split; [constructor|exact I].
  - destruct H as [Hw Hvs].
    destruct (collate (vaccine_vaccineType v) (vaccine_vaccineType w))
      eqn:E; cbn.
    + split; [|split; assumption].
      constructor; [exact E|].
      eapply Forall_impl; [|exact Hw].
      cbn. intros x Hx. exact (collate_trans _ _ _ E Hx).
    + split; [|now apply IH].
      apply (Permutation_Forall (insertBy_perm v vs)).
      constructor; [|exact Hw].
      destruct (collate_total (vaccine_vaccineType v)
                              (vaccine_vaccineType w)); congruence.
Qed.

Lemma orderBy_ascending vs :
  (forall a b, collate a b = true \/ collate b a = true) ->
  (forall a b c, collate a b = true -> collate b c = true ->
                 collate a c = true) ->
  ascending (orderBy vs).
Proof.
  intros collate_total collate_trans.
  induction vs as [|v vs IH]; cbn; [exact I|].
  now apply insertBy_ascending.
Qed.

(** C9. Under a total and transitive ordering of the vaccine types,
    [getVaccines] returns exactly the vaccines whose status is Active, each
    as often as the table holds it, in ascending order of vaccineType, and
    it returns the empty sequence when no vaccine is active; the store is
    left as it was. *)
Theorem getVaccines_active_ascending (st : Store) :
  (forall a b, collate a b = true \/ collate b a = true) ->
  (forall a b c, collate a b = true -> collate b c = true ->
                 collate a c = true) ->
  exists vs,
    getVaccines st = (Ok vs, st)
    /\ Permutation
         (filter (fun v => isActive (vaccine_status v)) (vaccines st)) vs
    /\ (forall v, In v vs <-> In v (vaccines st) /\ vaccine_status v = Active)
    /\ ascending vs
    /\ ((forall v, In v (vaccines st) -> vaccine_status v = Inactive) ->
        vs = []).
Proof.
  intros Htotal Htrans.
  exists (orderBy (filter (fun v => isActive (vaccine_status v)) (vaccines st))).
  split; [reflexivity|]. split; [apply orderBy_perm|]. split; [|split].
  - intros v. rewrite <- isActive_true.
    pose proof (filter_In (fun v => isActive (vaccine_status v)) v
                          (vaccines st)) as Hf.
    cbn beta in Hf. rewrite <- Hf.
    split; apply Permutation_in;
      [symmetry|]; apply orderBy_perm.
  - now apply orderBy_ascending.
  - intros H. rewrite filter_none; [reflexivity|].
    intros v Hv. now rewrite (H v Hv).
Qed.


(** * Further properties *)

(** ** Lookup *)

Lemma find_Some_split {A} (f : A -> bool) (l : list A) (x : A) :
  find f l = Some x <->
  exists pre post, l = pre ++ x :: post /\ f x = true
                   /\ Forall (fun y => f y = false) pre.
Proof.
  split.
  - induction l as [|a l IH]; cbn; [discriminate|].
    destruct (f a) eqn:Ha.
    + intros [= <-]. exists [], l. repeat split; auto.
    + intros H. destruct (IH H) as (pre & post & -> & Hx & Hpre).
      exists (a :: pre), post. repeat split; auto.
  - intros (pre & post & -> & Hx & Hpre). now apply find_first.
Qed.

Lemma dniReq_reflect dni e :
  match dni with
  | Some d => if negb (d =? 0) then evalCond (C_person_dni d) e else true
  | None => true
  end = true <->
  (forall d, dni = Some d -> d <> 0 ->
     exists p, employee_person e = Some p /\ person_dni p = d).
Proof.
  destruct dni as [d|]; [|split; [intros _ d' [=]|reflexivity]].
  destruct (Z.eqb_spec d 0) as [->|Hd]; cbn.
  - split; [intros _ d' [= <-] H; now destruct H|reflexivity].
  - destruct (employee_person e) as [p|].
    + rewrite Z.eqb_eq. split.
      * intros <- d' [= <-] _. eauto.
      * intros H. destruct (H d eq_refl Hd) as (p' & [= <-] & Hp). exact Hp.
    + split; [discriminate|].
      intros H. destruct (H d eq_refl Hd) as (p' & [=] & _).
Qed.

Lemma emailReq_reflect email e :
  match email with
  | Some s => if negb (s =? "")%string then evalCond (C_email s) e else true
  | None => true
  end = true <->
  (forall s, email = Some s -> s <> ""%string ->
     employee_email (employee_cols e) = s).
Proof.
  destruct email as [s|]; [|split; [intros _ s' [=]|reflexivity]].
  destruct (String.eqb_spec s "") as [->|Hs]; cbn.
  - split; [intros _ s' [= <-] H; now destruct H|reflexivity].
  - rewrite String.eqb_eq. split.
    + intros <- s' [= <-] _. reflexivity.
    + intros H. exact (H s eq_refl Hs).
Qed.

Lemma idReq_reflect employeeId e :
  match employeeId with
  | Some k => if negb (k =? 0) then evalCond (C_id k) e else true
  | None => true
  end = true <->
  (forall k, employeeId = Some k -> k <> 0 ->
     employee_id (employee_cols e) = k).
Proof.
  destruct employeeId as [k|]; [|split; [intros _ k' [=]|reflexivity]].
  destruct (Z.eqb_spec k 0) as [->|Hk]; cbn.
  - split; [intros _ k' [= <-] H; now destruct H|reflexivity].
  - rewrite Z.eqb_eq. split.
    + intros <- k' [= <-] _. reflexivity.
    + intros H. exact (H k eq_refl Hk).
Qed.

Lemma getEmployeeQuery_forallb dni email employeeId e :
  forallb (fun c => evalCond c e) (getEmployeeQuery dni email employeeId)
  = isActive (employee_status (employee_cols e))
    && match dni with
       | Some d => if negb (d =? 0) then evalCond (C_person_dni d) e else true
       | None => true
       end
    && match email with
       | Some s =>
           if negb (s =? "")%string then evalCond (C_email s) e else true
       | None => true
       end
    && match employeeId with
       | Some k => if negb (k =? 0) then evalCond (C_id k) e else true
       | None => true
       end.
Proof.
  unfold getEmployeeQuery, truthyNum, truthyStr.
  destruct dni as [d|], email as [s|], employeeId as [k|];
    try destruct (negb (d =? 0)); try destruct (negb (s =? "")%string);
    try destruct (negb (k =? 0));
    cbn [app forallb]; rewrite ?andb_true_r; rewrite ?andb_assoc;
    reflexivity.
Qed.

Lemma narrowedBy_reflect dni email employeeId e :
  forallb (fun c => evalCond c e) (getEmployeeQuery dni email employeeId)
  = true <-> narrowedBy dni email employeeId e.
Proof.
  rewrite getEmployeeQuery_forallb. unfold narrowedBy.
  rewrite !andb_true_iff, isActive_true, dniReq_reflect, emailReq_reflect,
    idReq_reflect.
  tauto.
Qed.

Lemma narrowedBy_not dni email employeeId e :
  forallb (fun c => evalCond c e) (getEmployeeQuery dni email employeeId)
  = false <-> ~ narrowedBy dni email employeeId e.
Proof.
  rewrite <- narrowedBy_reflect.
  destruct (forallb _ _); split; congruence.
Qed.

(** X1. [getEmployee] returns an employee exactly when it is the first
    joined employee, in storage order, that is Active and meets the
    requirement of every truthy argument; it returns null exactly when no
    joined employee does. *)
Theorem getEmployee_first_narrowed
    (st : Store) (dni : option Z) (email : option string)
    (employeeId : option Z) :
  (forall e,
     getOne st (getEmployeeQuery dni email employeeId) = Some e <->
     exists pre post,
       createQueryBuilder st = pre ++ e :: post
       /\ narrowedBy dni email employeeId e
       /\ Forall (fun x => ~ narrowedBy dni email employeeId x) pre)
  /\ (getOne st (getEmployeeQuery dni email employeeId) = None <->
      forall e, In e (createQueryBuilder st) ->
                ~ narrowedBy dni email employeeId e).
Proof.
  unfold getOne. split.
  - intros e. rewrite find_Some_split. split.
    + intros (pre & post & Hl & He & Hpre). exists pre, post.
      split; [exact Hl|]. split; [now apply narrowedBy_reflect|].
      eapply Forall_impl; [|exact Hpre]. intros x. apply narrowedBy_not.
    + intros (pre & post & Hl & He & Hpre). exists pre, post.
      split; [exact Hl|]. split; [now apply narrowedBy_reflect|].
      eapply Forall_impl; [|exact Hpre]. intros x. apply narrowedBy_not.
  - split.
    + intros H e Hin. apply narrowedBy_not. exact (find_none _ _ H e Hin).
    + intros H. apply find_all_false. intros e Hin.
      apply narrowedBy_not. now apply H.
Qed.

Lemma joinEmployee_graphActive st r : graphActive (joinEmployee st r).
Proof.
  unfold graphActive. cbn. split; [|split].
  - intros p Hp. unfold joinPerson in Hp. apply find_some in Hp.
    destruct Hp as [_ Hp]. apply andb_prop in Hp. destruct Hp as [Hid Hs].
    apply Z.eqb_eq in Hid. apply isActive_true in Hs. auto.
  - intros u Hu. unfold joinUser in Hu.
    destruct (find _ (users st)) as [row|] eqn:Hf; [|discriminate].
    cbn in Hu. injection Hu as <-. cbn.
    apply find_some in Hf. destruct Hf as [_ Hf].
    apply andb_prop in Hf. destruct Hf as [Hid Hs].
    apply Z.eqb_eq in Hid. apply isActive_true in Hs.
    split; [exact Hs|]. split; [exact Hid|].
    eexists. split; [reflexivity|].
    apply Forall_forall. intros ur Hur. unfold joinUserRoles in Hur.
    apply in_map_iff in Hur. destruct Hur as (c & <- & Hc).
    apply filter_In in Hc. destruct Hc as [_ Hc].
    apply andb_prop in Hc. destruct Hc as [Hu Ha].
    apply Z.eqb_eq in Hu. apply isActive_true in Ha.
    unfold userRoleJoined. cbn. split; [exact Ha|]. split; [exact Hu|].
    intros ro Hro. unfold joinRole in Hro. apply find_some in Hro.
    destruct Hro as [_ Hro].
    destruct (userRole_roleId c) as [k|]; [|discriminate].
    apply andb_prop in Hro. destruct Hro as [Hk Hr].
    apply Z.eqb_eq in Hk. apply isActive_true in Hr.
    split; [exact Hr|]. now rewrite Hk.
  - eexists. split; [reflexivity|].
    apply Forall_forall. intros ev Hev. unfold joinEmployeeVaccinations in Hev.
    apply in_map_iff in Hev. destruct Hev as (c & <- & Hc).
    apply filter_In in Hc. destruct Hc as [_ Hc].
    apply andb_prop in Hc. destruct Hc as [He Ha].
    apply Z.eqb_eq in He. apply isActive_true in Ha.
    unfold vaccinationJoined. cbn. split; [exact Ha|]. split; [exact He|].
    intros v Hv. unfold joinVaccine in Hv. apply find_some in Hv.
    destruct Hv as [_ Hv]. apply andb_prop in Hv. destruct Hv as [Hk Hs].
    apply Z.eqb_eq in Hk. apply isActive_true in Hs. auto.
Qed.

Lemma getOne_is_join st q e :
  getOne st q = Some e -> exists r, In r (employees st) /\ e = joinEmployee st r.
Proof.
  rewrite getOne_rows.
  destruct (find _ (employees st)) as [r|] eqn:Hf; [|discriminate].
  cbn. intros [= <-]. apply find_some in Hf. exists r. tauto.
Qed.

(** X2. Whatever [getEmployee] returns is the joined graph of a stored
    employee, and every relation in that graph is Active and linked by its
    key: the person, the user, each user role and its role, each
    vaccination and its vaccine.  No soft-deleted row is ever handed
    out through a join. *)
Theorem getEmployee_graph_is_active
    (st : Store) (dni : option Z) (email : option string)
    (employeeId : option Z) (e : EmployeeEntity) :
  getOne st (getEmployeeQuery dni email employeeId) = Some e ->
  (exists r, In r (employees st) /\ e = joinEmployee st r)
  /\ employee_status (employee_cols e) = Active
  /\ graphActive e.
Proof.
  intros H. destruct (getOne_is_join _ _ _ H) as (r & Hin & ->).
  split; [eauto|]. split.
  - unfold getOne in H. apply find_some in H. destruct H as [_ H].
    apply narrowedBy_reflect in H. exact (proj1 H).
  - apply joinEmployee_graphActive.
Qed.

(** X3. A lookup that is not narrowed by dni does not look at any relation:
    two stores with the same employees table yield the same employee row,
    whatever their persons, users, roles and vaccinations hold.  A missing
    or soft-deleted relation never hides the employee. *)
Theorem getEmployee_ignores_relations
    (st st' : Store) (dni : option Z) (email : option string)
    (employeeId : option Z) :
  truthyNum dni = false ->
  employees st' = employees st ->
  option_map employee_cols (getOne st (getEmployeeQuery dni email employeeId))
  = option_map employee_cols
      (getOne st' (getEmployeeQuery dni email employeeId)).
Proof.
  intros Hd He. rewrite !getOne_rows, He.
  assert (Hp : forall r,
    forallb (fun c => evalCond c (joinEmployee st r))
            (getEmployeeQuery dni email employeeId)
    = forallb (fun c => evalCond c (joinEmployee st' r))
              (getEmployeeQuery dni email employeeId)).
  { intros r. rewrite !getEmployeeQuery_forallb.
    destruct dni as [d|]; cbn in Hd; [rewrite Hd|]; reflexivity. }
  rewrite (find_pointwise _ _ (employees st) Hp).
  destruct (find _ (employees st)); reflexivity.
Qed.

(** ** Projection and listing *)

Lemma myInformation_run dni st :
  myInformation dni st =
  match getOne st (getEmployeeQuery (Some dni) None None) with
  | None => (Err (TypeError "employee.id"), st)
  | Some e => (mapEmployee e, st)
  end.
Proof.
  unfold myInformation, bind, getEmployee, gets.
  destruct (getOne st _) as [e|]; [|reflexivity].
  unfold mapEmployee. destruct (employee_person e); reflexivity.
Qed.

(** X4. [myInformation] has no guard for a missing employee: for a non-zero
    dni that no active employee's person carries it throws a TypeError, not
    employee-not-found; and for dni 0, where the lookup is not narrowed, it
    answers with the projection of the first active employee in storage
    order.  The store is never written. *)
Theorem myInformation_missing_and_zero (st : Store) :
  (forall dni,
     dni <> 0 ->
     (forall r p, In r (employees st) -> employee_status r = Active ->
                  joinPerson st r = Some p -> person_dni p <> dni) ->
     myInformation dni st = (Err (TypeError "employee.id"), st))
  /\ (forall pre r post,
        employees st = pre ++ r :: post ->
        Forall (fun x => employee_status x = Inactive) pre ->
        employee_status r = Active ->
        myInformation 0 st = (mapEmployee (joinEmployee st r), st))
  /\ ((forall r, In r (employees st) -> employee_status r = Inactive) ->
      myInformation 0 st = (Err (TypeError "employee.id"), st)).
Proof.
  split; [|split].
  - intros dni Hd Hno. rewrite myInformation_run.
    destruct (getOne st _) as [e|] eqn:He; [|reflexivity].
    destruct (getOne_by_dni_sound st dni e Hd He)
      as (r & p & Hin & -> & Ha & Hp & Hdni).
    cbn in Hp. now destruct (Hno r p Hin Ha Hp).
  - intros pre r post Hs Hpre Hr. rewrite myInformation_run.
    rewrite getOne_rows, Hs. cbn.
    rewrite find_first; [reflexivity| |cbn; now rewrite Hr].
    eapply Forall_impl; [|exact Hpre]. cbn. intros x ->. reflexivity.
  - intros Hall. rewrite myInformation_run, getOne_rows. cbn.
    rewrite find_all_false; [reflexivity|].
    intros r Hin. now rewrite (Hall r Hin).
Qed.

Lemma mapEmployee_id e r :
  mapEmployee e = Ok r -> emp_id r = employee_id (employee_cols e).
Proof.
  unfold mapEmployee. destruct (employee_person e); [|discriminate].
  now intros [= <-].
Qed.

Lemma mapEmployees_ids es :
  forall rs, mapEmployees es = Ok rs ->
             map emp_id rs = map (fun e => employee_id (employee_cols e)) es.
Proof.
  induction es as [|e es IH]; cbn; intros rs H.
  - now injection H as <-.
  - destruct (mapEmployee e) as [r|] eqn:He; [|discriminate].
    destruct (mapEmployees es) as [rs'|]; [|discriminate].
    injection H as <-. cbn.
    now rewrite (mapEmployee_id e r He), (IH rs' eq_refl).
Qed.

Lemma mapEmployees_Err_inv es err :
  mapEmployees es = Err err ->
  err = TypeError "employee.person.dni"
  /\ exists e, In e es /\ employee_person e = None.
Proof.
  induction es as [|e es IH]; cbn; [discriminate|].
  unfold mapEmployee at 1.
  destruct (employee_person e) eqn:Hp.
  - destruct (mapEmployees es); [discriminate|].
    intros [= <-]. destruct (IH eq_refl) as (-> & x & Hin & Hx).
    split; [reflexivity|]. exists x. auto.
  - intros [= <-]. split; [reflexivity|]. exists e. auto.
Qed.

Lemma mapEmployees_Err_intro es :
  (exists e, In e es /\ employee_person e = None) ->
  mapEmployees es = Err (TypeError "employee.person.dni").
Proof.
  intros (x & Hin & Hx).
  destruct (mapEmployees es) as [rs|err] eqn:E.
  - exfalso. revert rs E. induction es as [|e es IH]; [destruct Hin|].
    cbn. intros rs. unfold mapEmployee at 1.
    destruct (employee_person e) eqn:Hp; [|discriminate].
    destruct (mapEmployees es) as [rs'|]; [|discriminate].
    intros _. destruct Hin as [->|Hin]; [congruence|].
    exact (IH Hin rs' eq_refl).
  - now destruct (mapEmployees_Err_inv es err E) as [-> _].
Qed.

(** X5. [mapEmployees] is all or nothing.  It returns one record per
    employee, in the same order and with the employees' ids, when every
    employee has its person; a single employee whose person is null makes
    the whole call throw the TypeError of [employee.person.dni]. *)
Theorem mapEmployees_all_or_nothing (es : list EmployeeEntity) :
  (forall rs, mapEmployees es = Ok rs ->
     map emp_id rs = map (fun e => employee_id (employee_cols e)) es
     /\ List.length rs = List.length es
     /\ Forall (fun e => employee_person e <> None) es)
  /\ (forall err, mapEmployees es = Err err ->
        err = TypeError "employee.person.dni"
        /\ exists e, In e es /\ employee_person e = None)
  /\ ((exists e, In e es /\ employee_person e = None) ->
      mapEmployees es = Err (TypeError "employee.person.dni")).
Proof.
  split; [|split].
  - intros rs H. pose proof (mapEmployees_ids es rs H) as Hids.
    split; [exact Hids|]. split.
    + apply (f_equal (@List.length Z)) in Hids.
      now rewrite !length_map in Hids.
    + apply Forall_forall. intros e Hin Hp.
      rewrite (mapEmployees_Err_intro es) in H; [discriminate|eauto].
  - apply mapEmployees_Err_inv.
  - apply mapEmployees_Err_intro.
Qed.

Lemma filterEmployees_falsy q f :
  truthy (f_dni f) = false -> truthy (f_email f) = false ->
  truthy (f_completeName f) = false -> truthy (f_vaccine f) = false ->
  truthy (f_isVaccinated f) = false ->
  truthy (f_startDate f) && truthy (f_finishDate f) = false ->
  filterEmployees q f = q.
Proof.
  unfold filterEmployees. now intros -> -> -> -> -> ->.
Qed.

(** X6. A filter object whose five fields are all falsy and that lacks a
    truthy start or finish date, for instance [isVaccinated = false] or
    [dni = 0], filters nothing: under any store engine [getEmployees] and
    [listEmployees] answer exactly as they do without a filter object. *)
Theorem listEmployees_falsy_filter_is_no_filter
    (getMany : Engine) (st : Store) (f : FilterEmployeeDto) :
  truthy (f_dni f) = false -> truthy (f_email f) = false ->
  truthy (f_completeName f) = false -> truthy (f_vaccine f) = false ->
  truthy (f_isVaccinated f) = false ->
  truthy (f_startDate f) && truthy (f_finishDate f) = false ->
  getEmployees getMany (Some f) st = getEmployees getMany None st
  /\ listEmployees getMany (Some f) st = listEmployees getMany None st.
Proof.
  intros H1 H2 H3 H4 H5 H6.
  unfold listEmployees, bind, getEmployees, gets, getEmployeesQuery.
  rewrite (filterEmployees_falsy _ f H1 H2 H3 H4 H5 H6).
  split; reflexivity.
Qed.

Lemma filter_map_swap {A B} (g : A -> B) (f : B -> bool) (l : list A) :
  filter f (map g l) = map g (filter (fun x => f (g x)) l).
Proof.
  induction l as [|a l IH]; cbn; [reflexivity|].
  destruct (f (g a)); cbn; now rewrite IH.
Qed.

(** X7. Where the store engine executes the unfiltered list query as the
    Active employees with their joined graphs, in storage order,
    [listEmployees()] returns one record per Active employee in that order
    when each of them has an Active person, and throws a TypeError as soon
    as one Active employee has none: one soft-deleted person breaks the
    whole listing. *)
Theorem listEmployees_unfiltered (getMany : Engine) (st : Store) :
  getMany st [W_cond C_status_active]
  = filter (fun e => isActive (employee_status (employee_cols e)))
           (createQueryBuilder st) ->
  ((exists r, In r (employees st) /\ employee_status r = Active
              /\ joinPerson st r = None) ->
   listEmployees getMany None st = (Err (TypeError "employee.person.dni"), st))
  /\ ((forall r, In r (employees st) -> employee_status r = Active ->
                 joinPerson st r <> None) ->
      exists rs,
        listEmployees getMany None st = (Ok rs, st)
        /\ map emp_id rs
           = map employee_id
               (filter (fun r => isActive (employee_status r))
                       (employees st))).
Proof.
  intros Hrun.
  assert (Hl : listEmployees getMany None st
               = (mapEmployees
                    (map (joinEmployee st)
                       (filter (fun r => isActive (employee_status r))
                               (employees st))), st)).
  { unfold listEmployees, bind, getEmployees, gets, getEmployeesQuery, liftR.
    rewrite Hrun. unfold createQueryBuilder. rewrite filter_map_swap.
    reflexivity. }
  rewrite Hl. split.
  - intros (r & Hin & Ha & Hp).
    rewrite mapEmployees_Err_intro; [reflexivity|].
    exists (joinEmployee st r). split; [|exact Hp].
    apply in_map. apply filter_In. split; [exact Hin|now rewrite Ha].
  - intros Hall.
    destruct (mapEmployees_total
                (map (joinEmployee st)
                   (filter (fun r => isActive (employee_status r))
                           (employees st)))) as [rs Hrs].
    + apply Forall_forall. intros e He.
      apply in_map_iff in He. destruct He as (r & <- & Hr).
      apply filter_In in Hr. destruct Hr as [Hin Ha].
      apply isActive_true in Ha. cbn. now apply Hall.
    + exists rs. rewrite Hrs. split; [reflexivity|].
      rewrite (mapEmployees_ids _ rs Hrs), map_map. reflexivity.
Qed.

(** ** Creation *)

Lemma createEmploye_Ok_inv dto now st r st' :
  createEmploye dto now st = (Ok r, st') ->
  (forall p, In p (persons st) -> person_dni p <> c_dni dto)
  /\ getOne st (getEmployeeQuery None (Some (c_email dto)) None) = None
  /\ validateID (String_ (c_dni dto)) = true
  /\ exists p e u ur,
       createdRows dto now st st' p e u ur /\ ce_id r = employee_id e.
Proof.
  rewrite createEmploye_reads.
  destruct (find _ (persons st)) as [x|] eqn:Hp; [discriminate|].
  destruct (getOne st _) as [x|] eqn:He; [discriminate|].
  destruct (validateID _) eqn:Hv; [|discriminate].
  cbn -[nextId String_]. intros [= <- <-].
  split.
  { intros p Hin. apply Z.eqb_neq. exact (find_none _ _ Hp p Hin). }
  split; [reflexivity|]. split; [reflexivity|].
  do 4 eexists. split.
  - unfold createdRows. cbn -[nextId String_]. repeat split.
  - reflexivity.
Qed.

(** X8. [createEmploye] succeeds exactly when no Person carries the dto's
    dni, the email lookup finds no employee and the validator accepts the
    dni.  A success appends exactly one row to each of the persons,
    employees, users and user roles, all Active and chained by their keys
    (employee to person, user to employee, user role to user and to the
    looked-up role), keeps every earlier row, and leaves the roles,
    vaccinations and vaccines untouched. *)
Theorem createEmploye_success_exactly
    (dto : CreateEmployeeDto) (now : Z) (st : Store) :
  (((forall p, In p (persons st) -> person_dni p <> c_dni dto)
    /\ getOne st (getEmployeeQuery None (Some (c_email dto)) None) = None
    /\ validateID (String_ (c_dni dto)) = true)
   <-> exists r st', createEmploye dto now st = (Ok r, st'))
  /\ (forall r st',
        createEmploye dto now st = (Ok r, st') ->
        exists p e u ur,
          createdRows dto now st st' p e u ur /\ ce_id r = employee_id e).
Proof.
  split; [split|].
  - intros (Hp & He & Hv). rewrite createEmploye_reads.
    rewrite (getPerson_none st _ Hp), He, Hv. cbn -[nextId String_].
    do 2 eexists. reflexivity.
  - intros (r & st' & H). apply createEmploye_Ok_inv in H. tauto.
  - intros r st' H. apply createEmploye_Ok_inv in H. tauto.
Qed.

(** X9. Creation rejects a repeat.  After a successful [createEmploye],
    every further call with the same dni is rejected with dni-exist, and
    every further call with the same email and a dni that no Person
    carries is rejected with email-exist; neither call writes anything. *)
Theorem createEmploye_twice_is_rejected
    (dto : CreateEmployeeDto) (now : Z) (st st' : Store)
    (r : CreateEmployee) :
  createEmploye dto now st = (Ok r, st') ->
  (forall dto2 now2,
     c_dni dto2 = c_dni dto ->
     createEmploye dto2 now2 st' = (Err dniExist, st'))
  /\ (forall dto2 now2,
        c_email dto2 = c_email dto ->
        (forall p, In p (persons st') -> person_dni p <> c_dni dto2) ->
        createEmploye dto2 now2 st' = (Err emailExist, st')).
Proof.
  intros H. apply createEmploye_Ok_inv in H.
  destruct H as (_ & _ & _ & p & e & u & ur & Hrows & _).
  destruct Hrows as (Hps & Hes & _ & _ & _ & _ & _ & -> & -> & _).
  split.
  - intros dto2 now2 Hd. rewrite createEmploye_reads.
    destruct (getPerson_found st' (c_dni dto2)) as [x ->]; [|reflexivity].
    eexists. split; [rewrite Hps; apply in_or_app; right; left; reflexivity|].
    cbn. now rewrite Hd.
  - intros dto2 now2 Hm Hp. rewrite createEmploye_reads.
    rewrite (getPerson_none st' _ Hp). cbn [isSome].
    destruct (getOne_by_email_complete st' (c_email dto2)) as [x ->];
      [|reflexivity].
    eexists. split; [rewrite Hes; apply in_or_app; right; left; reflexivity|].
    cbn. now rewrite Hm.
Qed.

Lemma nextId_gt ids x : In x ids -> x < nextId ids.
Proof.
  unfold nextId. induction ids as [|a ids IH]; cbn [fold_right In];
    [intros []|].
  intros [->|Hin]; [lia|]. specialize (IH Hin). lia.
Qed.

Lemma find_app_skip {A} (f : A -> bool) (l1 l2 : list A) :
  (forall x, In x l1 -> f x = false) ->
  find f (l1 ++ l2) = find f l2.
Proof.
  induction l1 as [|a l1 IH]; cbn; intros H; [reflexivity|].
  rewrite (H a) by now left. apply IH. intros x Hx. apply H. now right.
Qed.

Lemma find_app_keep {A} (f : A -> bool) (l1 l2 : list A) x :
  find f l1 = Some x -> find f (l1 ++ l2) = Some x.
Proof.
  induction l1 as [|a l1 IH]; cbn; [discriminate|].
  destruct (f a); [auto|exact IH].
Qed.

Lemma keysResolve_spec st :
  keysResolve st = true ->
  (forall r, In r (employees st) ->
     In (employee_personId r) (map person_id (persons st)))
  /\ (forall u, In u (users st) ->
        In (user_employeeId u) (map employee_id (employees st)))
  /\ (forall ur, In ur (userRoles st) ->
        In (userRole_userId ur) (map user_id (users st)))
  /\ (forall ev, In ev (employeeVaccinations st) ->
        In (employeeVaccination_employeeId ev)
           (map employee_id (employees st))).
Proof.
  unfold keysResolve. rewrite !andb_true_iff, !forallb_forall.
  intros [[[H1 H2] H3] H4].
  repeat split; intros x Hx;
    [specialize (H1 x Hx) as H | specialize (H2 x Hx) as H
     | specialize (H3 x Hx) as H | specialize (H4 x Hx) as H];
    apply existsb_exists in H; destruct H as (y & Hy & E);
    apply Z.eqb_eq in E; rewrite <- E; now apply in_map.
Qed.

(** The graph of the employee that [createEmploye] has just stored. *)
Lemma created_graph dto now st st' p e u ur :
  keysResolve st = true ->
  createdRows dto now st st' p e u ur ->
  joinPerson st' e = Some p
  /\ (exists urs, joinUser st' e
                  = Some {| user_cols := u; user_userRoles := Some [urs] |})
  /\ joinEmployeeVaccinations st' e = []
  /\ (forall y, In y (employees st) ->
        forall q, joinPerson st' y = Some q -> In q (persons st)).
Proof.
  intros Hk Hrows. destruct (keysResolve_spec st Hk) as (K1 & K2 & K3 & K4).
  destruct Hrows as (Hps & Hes & Hus & Hurs & _ & Hevs & _
                     & Hp & He & Hu & Hur).
  assert (Hpid : person_id p = nextId (map person_id (persons st)))
    by now rewrite Hp.
  assert (Heid : employee_id e = nextId (map employee_id (employees st)))
    by now rewrite He.
  assert (Huid : user_id u = nextId (map user_id (users st)))
    by now rewrite Hu.
  split; [|split; [|split]].
  - unfold joinPerson. rewrite Hps, find_app_skip.
    + cbn. replace (employee_personId e) with (person_id p)
        by now rewrite He.
      rewrite Z.eqb_refl. now rewrite Hp.
    + intros x Hx. replace (employee_personId e) with (person_id p)
        by now rewrite He.
      apply (in_map person_id) in Hx. apply nextId_gt in Hx.
      replace (person_id x =? person_id p) with false; [reflexivity|].
      symmetry. apply Z.eqb_neq. lia.
  - unfold joinUser. rewrite Hus, find_app_skip.
    + cbn. replace (user_employeeId u) with (employee_id e)
        by now rewrite Hu.
      rewrite Z.eqb_refl. replace (user_status u) with Active
        by now rewrite Hu.
      cbn. unfold joinUserRoles. rewrite Hurs, filter_app.
      rewrite filter_none.
      * cbn. replace (userRole_userId ur) with (user_id u)
          by now rewrite Hur.
        rewrite Z.eqb_refl. replace (userRole_status ur) with Active
          by now rewrite Hur.
        cbn. eauto.
      * intros x Hx. apply K3 in Hx. apply nextId_gt in Hx.
        replace (userRole_userId x =? user_id u) with false; [reflexivity|].
        symmetry. apply Z.eqb_neq. lia.
    + intros x Hx. apply K2 in Hx. apply nextId_gt in Hx.
      replace (user_employeeId x =? employee_id e) with false; [reflexivity|].
      symmetry. apply Z.eqb_neq. lia.
  - unfold joinEmployeeVaccinations. rewrite Hevs, filter_none; [reflexivity|].
    intros x Hx. apply K4 in Hx. apply nextId_gt in Hx.
    replace (employeeVaccination_employeeId x =? employee_id e) with false;
      [reflexivity|].
    symmetry. apply Z.eqb_neq. lia.
  - intros y Hy q Hq. unfold joinPerson in Hq. apply find_some in Hq.
    destruct Hq as [Hin Hq]. rewrite Hps in Hin.
    apply in_app_or in Hin. destruct Hin as [Hin|[<-|[]]]; [exact Hin|].
    exfalso. apply andb_prop in Hq. destruct Hq as [Hq _].
    apply Z.eqb_eq in Hq. apply K1 in Hy. apply nextId_gt in Hy. lia.
Qed.

(** X10. Create, then read back.  On a store whose foreign keys resolve,
    after [createEmploye] has succeeded with a non-zero dni,
    [myInformation] of that dni returns the employee just created: its id,
    the dto's person and employee fields, status Active, the email as
    username, the dni in clear as the password, no vaccines (null) and
    exactly one role entry. *)
Theorem createEmploye_then_myInformation
    (dto : CreateEmployeeDto) (now : Z) (st st' : Store)
    (r : CreateEmployee) :
  createEmploye dto now st = (Ok r, st') ->
  c_dni dto <> 0 ->
  keysResolve st = true ->
  exists info,
    myInformation (c_dni dto) st' = (Ok info, st')
    /\ emp_id info = ce_id r
    /\ emp_dni info = c_dni dto
    /\ emp_firstName info = c_firstName dto
    /\ emp_lastName info = c_lastName dto
    /\ emp_birthDate info = c_birthDate dto
    /\ emp_homeAddress info = c_homeAddress dto
    /\ emp_mobilePhone info = c_mobilePhone dto
    /\ emp_vaccinationStatus info = c_vaccinationStatus dto
    /\ emp_status info = "Active"%string
    /\ emp_username info = Some (c_email dto)
    /\ emp_password info = Some (String_ (c_dni dto))
    /\ emp_vaccines info = None
    /\ exists rv, emp_roles info = Some [rv].
Proof.
  intros H Hd Hk. apply createEmploye_Ok_inv in H.
  destruct H as (Hfresh & _ & _ & p & e & u & ur & Hrows & Hid).
  destruct (created_graph dto now st st' p e u ur Hk Hrows)
    as (Hjp & (urs & Hju) & Hjv & Hold).
  destruct Hrows as (Hps & Hes & Hus & Hurs & _ & Hevs & _
                     & Hp & He & Hu & Hur).
  assert (Hfound : getOne st' (getEmployeeQuery (Some (c_dni dto)) None None)
                   = Some (joinEmployee st' e)).
  { rewrite (getEmployeeQuery_dni _ Hd), getOne_rows, Hes.
    rewrite find_first; [reflexivity| |].
    - apply Forall_forall. intros y Hy. cbn.
      destruct (joinPerson st' y) as [q|] eqn:Hq;
        [|now rewrite andb_false_r].
      pose proof (Hfresh q (Hold y Hy q Hq)) as Hne.
      apply Z.eqb_neq in Hne. rewrite Hne. now rewrite !andb_false_r.
    - cbn. rewrite Hjp. replace (employee_status e) with Active
        by now rewrite He.
      replace (person_dni p) with (c_dni dto) by now rewrite Hp.
      now rewrite Z.eqb_refl. }
  rewrite myInformation_run, Hfound.
  unfold mapEmployee, userRolesOf. cbn. rewrite Hjp, Hju, Hjv. cbn.
  eexists. split; [reflexivity|]. cbn.
  rewrite Hid, Hp, He, Hu. cbn. repeat split. eauto.
Qed.

(** ** Update and soft delete *)

Lemma updateEmployee_run dni role type dto st :
  updateEmployee dni role type dto st =
  match getOne st (getEmployeeQuery (Some dni) None None) with
  | Some found =>
      if negb (dni =? 0) && strictEq type Type_DELETE
         && strictEq role User_ADMINISTRATOR
      then softDelete found st
      else if negb (dni =? 0) && strictEq type Type_UPDATE
      then applyUpdate found dto st
      else (Err employeeNotFound, st)
  | None => (Err employeeNotFound, st)
  end.
Proof.
  unfold updateEmployee, bind, getEmployee, gets.
  destruct (getOne st _); [|reflexivity].
  unfold truthyNum.
  destruct (negb (dni =? 0) && strictEq type Type_DELETE
            && strictEq role User_ADMINISTRATOR); [reflexivity|].
  destruct (negb (dni =? 0) && strictEq type Type_UPDATE); reflexivity.
Qed.

Lemma softDelete_run found st :
  softDelete found st =
  (match employee_person found with
   | None => Err (TypeError "findEmployee.person.firstName")
   | Some person =>
       Ok (Deleted "The employee has been deleted successfully"
                   (employee_id (employee_cols found)) "Inactive"
                   (person_firstName person ++ " "
                    ++ person_lastName person)%string
                   (person_dni person)
                   (employee_email (employee_cols found)))
   end,
   setEmployees st
     (map (fun r => if employee_id r =? employee_id (employee_cols found)
                    then patchEmployee
                           (mkEmployeePartial None None None None None
                                              (Some Inactive)) r
                    else r)
          (employees st))).
Proof.
  unfold softDelete, bind, employeeRepository_update, modify.
  destruct (employee_person found); reflexivity.
Qed.

(** The three writes of the update branch, as row transformers. *)
Lemma applyUpdate_run found dto st :
  applyUpdate found (Some dto) st =
  let st1 :=
    setEmployees st
      (map (fun r => if employee_id r =? employee_id (employee_cols found)
                     then patchEmployee
                            (mkEmployeePartial (u_email dto) (u_birthDate dto)
                               (u_homeAddress dto) (u_mobilePhone dto)
                               (u_vaccinationStatus dto) None) r
                     else r)
           (employees st)) in
  let st2 :=
    setPersons st1
      (map (fun r => if idIs (option_map person_id (employee_person found))
                             (person_id r)
                     then patchPerson
                            (mkPersonPartial
                               (if validateID (StringOpt (u_dni dto))
                                then u_dni dto else None)
                               (u_firstName dto) (u_lastName dto)) r
                     else r)
           (persons st)) in
  if truthyStr (u_password dto)
  then (Err (BcryptError "data and salt arguments required"), st2)
  else
    (Ok (Updated "The employee has been updated successfully" dto),
     setUsers st2
       (map (fun r =>
               if idIs (option_map (fun u => user_id (user_cols u))
                                   (employee_user found)) (user_id r)
               then patchUser
                      (mkUserPartial
                         (if truthyStr (u_email dto)
                          then u_email dto else u_username dto) None) r
               else r)
            (users st))).
Proof.
  unfold applyUpdate.
  destruct (truthyStr (u_password dto)); reflexivity.
Qed.

Lemma map_keeps {A B} (g : A -> B) (f : A -> A) (l : list A) :
  (forall x, g (f x) = g x) -> map g (map f l) = map g l.
Proof.
  intros H. rewrite map_map. apply map_ext. exact H.
Qed.

Lemma updateFrame_refl st : updateFrame st st.
Proof.
  unfold updateFrame. repeat split.
  induction (employees st); constructor; [now left|assumption].
Qed.

Lemma updateFrame_maps st st'
    (fE : EmployeeColumns -> EmployeeColumns)
    (fP : PersonEntity -> PersonEntity) (fU : UserColumns -> UserColumns) :
  employees st' = map fE (employees st) ->
  persons st' = map fP (persons st) ->
  users st' = map fU (users st) ->
  userRoles st' = userRoles st -> roles st' = roles st ->
  employeeVaccinations st' = employeeVaccinations st ->
  vaccines st' = vaccines st ->
  (forall r, employee_id (fE r) = employee_id r
             /\ employee_personId (fE r) = employee_personId r
             /\ employee_createdDate (fE r) = employee_createdDate r
             /\ statusKeptOrInactive r (fE r)) ->
  (forall x, person_id (fP x) = person_id x
             /\ person_status (fP x) = person_status x) ->
  (forall u, user_id (fU u) = user_id u
             /\ user_password (fU u) = user_password u
             /\ user_status (fU u) = user_status u
             /\ user_employeeId (fU u) = user_employeeId u) ->
  updateFrame st st'.
Proof.
  intros H1 H2 H3 H4 H5 H6 H7 HE HP HU. unfold updateFrame.
  rewrite H1, H2, H3, H4, H5, H6, H7.
  repeat split; try (apply map_keeps; intros x);
    try apply HE; try apply HP; try apply HU.
  apply Forall2_map_same. intros r. apply HE.
Qed.

Lemma guarded_patchEmployee_keeps (c : EmployeeColumns -> bool) pe r :
  pe_status pe = None \/ pe_status pe = Some Inactive ->
  let r' := if c r then patchEmployee pe r else r in
  employee_id r' = employee_id r
  /\ employee_personId r' = employee_personId r
  /\ employee_createdDate r' = employee_createdDate r
  /\ statusKeptOrInactive r r'.
Proof.
  intros Hs. unfold statusKeptOrInactive.
  destruct (c r); cbn; [|tauto].
  repeat split. destruct Hs as [-> | ->]; cbn; tauto.
Qed.

Lemma guarded_patchPerson_keeps (c : PersonEntity -> bool) pp x :
  let x' := if c x then patchPerson pp x else x in
  person_id x' = person_id x /\ person_status x' = person_status x.
Proof. destruct (c x); cbn; tauto. Qed.

Lemma guarded_patchUser_keeps (c : UserColumns -> bool) name u :
  let u' := if c u then patchUser (mkUserPartial name None) u else u in
  user_id u' = user_id u
  /\ user_password u' = user_password u
  /\ user_status u' = user_status u
  /\ user_employeeId u' = user_employeeId u.
Proof. destruct (c u); cbn; tauto. Qed.

Lemma same_row_keeps_employee (r : EmployeeColumns) :
  employee_id r = employee_id r
  /\ employee_personId r = employee_personId r
  /\ employee_createdDate r = employee_createdDate r
  /\ statusKeptOrInactive r r.
Proof. unfold statusKeptOrInactive. tauto. Qed.

Lemma softDelete_frame found st : updateFrame st (snd (softDelete found st)).
Proof.
  rewrite softDelete_run. cbn [snd].
  eapply updateFrame_maps with (fP := fun x => x) (fU := fun u => u);
    try reflexivity; try (cbn; symmetry; apply map_id); try tauto.
  intros r.
  apply (guarded_patchEmployee_keeps
           (fun r => employee_id r =? employee_id (employee_cols found))).
  now right.
Qed.

Lemma applyUpdate_frame found dto st :
  updateFrame st (snd (applyUpdate found dto st)).
Proof.
  destruct dto as [dto|]; [|apply updateFrame_refl].
  rewrite applyUpdate_run. cbv zeta.
  destruct (truthyStr (u_password dto)); cbn [snd].
  - eapply updateFrame_maps with (fU := fun u => u);
      try reflexivity; try (cbn; symmetry; apply map_id); try tauto.
    + intros r.
      apply (guarded_patchEmployee_keeps
               (fun r => employee_id r =? employee_id (employee_cols found))).
      now left.
    + intros x.
      apply (guarded_patchPerson_keeps
               (fun r => idIs (option_map person_id (employee_person found))
                              (person_id r))).
  - eapply updateFrame_maps; try reflexivity.
    + intros r.
      apply (guarded_patchEmployee_keeps
               (fun r => employee_id r =? employee_id (employee_cols found))).
      now left.
    + intros x.
      apply (guarded_patchPerson_keeps
               (fun r => idIs (option_map person_id (employee_person found))
                              (person_id r))).
    + intros u.
      apply (guarded_patchUser_keeps
               (fun r => idIs (option_map (fun u => user_id (user_cols u))
                                          (employee_user found))
                              (user_id r))).
Qed.

Lemma updateEmployee_run_frame dni role type dto st :
  updateFrame st (snd (updateEmployee dni role type dto st)).
Proof.
  rewrite updateEmployee_run.
  destruct (getOne st _) as [found|]; [|apply updateFrame_refl].
  destruct (_ && _ && _); [apply softDelete_frame|].
  destruct (_ && _); [apply applyUpdate_frame|apply updateFrame_refl].
Qed.

(** X11. Whatever its arguments and whatever its outcome, [updateEmployee]
    neither adds nor removes a row and never touches a stored password: the
    ids of the employees, persons and users, the link of every employee to
    its person and of every user to its employee, the statuses of persons
    and users and every user password are as before; an employee status
    either stays or becomes Inactive (nothing is ever reactivated); user
    roles, roles, vaccinations and vaccines are untouched. *)
Theorem updateEmployee_frame
    (dni : Z) (role type : option string) (dto : option UpdateEmployeeDto)
    (st st' : Store) (res : Result UpdateEmployeeResult) :
  updateEmployee dni role type dto st = (res, st') ->
  updateFrame st st'.
Proof.
  intros H. pose proof (updateEmployee_run_frame dni role type dto st) as F.
  now rewrite H in F.
Qed.

Lemma updateEmployee_no_match st dni role type dto :
  (forall r p, In r (employees st) -> employee_status r = Active ->
               joinPerson st r = Some p -> person_dni p <> dni) ->
  updateEmployee dni role type dto st = (Err employeeNotFound, st).
Proof.
  intros Hno. destruct (Z.eq_dec dni 0) as [->|Hd].
  - apply updateEmployee_not_found_when_no_branch; reflexivity.
  - rewrite updateEmployee_run.
    destruct (getOne st _) as [e|] eqn:He; [|reflexivity].
    destruct (getOne_by_dni_sound st dni e Hd He)
      as (r & p & Hin & -> & Ha & Hp & Hdni).
    cbn in Hp. now destruct (Hno r p Hin Ha Hp).
Qed.

Lemma updateEmployee_Deleted_inv dni role type dto st st' msg id s name d m :
  updateEmployee dni role type dto st = (Ok (Deleted msg id s name d m), st') ->
  exists found,
    getOne st (getEmployeeQuery (Some dni) None None) = Some found
    /\ id = employee_id (employee_cols found)
    /\ st' = setEmployees st
               (map (fun r => if employee_id r =? id
                              then patchEmployee
                                     (mkEmployeePartial None None None None
                                        None (Some Inactive)) r
                              else r)
                    (employees st)).
Proof.
  rewrite updateEmployee_run.
  destruct (getOne st _) as [found|]; [|discriminate].
  destruct (_ && _ && _).
  - rewrite softDelete_run. destruct (employee_person found); [|discriminate].
    intros [= _ <- _ _ _ _ <-]. exists found. auto.
  - destruct (_ && _); [|discriminate].
    destruct dto as [dto|]; [|discriminate].
    rewrite applyUpdate_run. cbv zeta.
    destruct (truthyStr (u_password dto)); discriminate.
Qed.

(** X12. A soft-deleted employee is gone for every reader.  After
    [updateEmployee] has returned the deletion confirmation for employee
    [id], every employee row with that id is Inactive, no [getEmployee]
    lookup, whatever its arguments, returns that employee again, and, when
    the dni named no other active employee, every further [updateEmployee]
    for that dni fails with employee-not-found and changes nothing. *)
Theorem softDelete_hides_employee
    (dni : Z) (role type : option string) (dto : option UpdateEmployeeDto)
    (st st' : Store) (msg : string) (id : Z) (s name : string) (d : Z)
    (m : string) :
  updateEmployee dni role type dto st = (Ok (Deleted msg id s name d m), st') ->
  (forall r, In r (employees st') -> employee_id r = id ->
             employee_status r = Inactive)
  /\ (forall a b c e,
        getOne st' (getEmployeeQuery a b c) = Some e ->
        employee_id (employee_cols e) <> id)
  /\ ((forall r p, In r (employees st) -> employee_status r = Active ->
                   joinPerson st r = Some p -> person_dni p = dni ->
                   employee_id r = id) ->
      forall role2 type2 dto2,
        updateEmployee dni role2 type2 dto2 st' = (Err employeeNotFound, st')).
Proof.
  intros H. apply updateEmployee_Deleted_inv in H.
  destruct H as (found & _ & _ & ->).
  assert (Hrows : forall r,
            In r (employees
                    (setEmployees st
                       (map (fun r => if employee_id r =? id
                                      then patchEmployee
                                             (mkEmployeePartial None None None
                                                None None (Some Inactive)) r
                                      else r)
                            (employees st)))) ->
            (employee_id r = id /\ employee_status r = Inactive)
            \/ (employee_id r <> id /\ In r (employees st))).
  { cbn. intros r Hr. apply in_map_iff in Hr. destruct Hr as (x & <- & Hx).
    destruct (Z.eqb_spec (employee_id x) id) as [E|E]; cbn; [left|right]; auto. }
  split; [|split].
  - intros r Hr Hid. destruct (Hrows r Hr) as [[_ Hs]|[Hne _]];
      [exact Hs|contradiction].
  - intros a b c e He Hid.
    destruct (getOne_is_join _ _ _ He) as (r & Hin & ->).
    unfold getOne in He. apply find_some in He. destruct He as [_ He].
    apply narrowedBy_reflect in He. destruct He as [Ha _]. cbn in Ha, Hid.
    destruct (Hrows r Hin) as [[_ Hs]|[Hne _]]; congruence.
  - intros Huniq role2 type2 dto2. apply updateEmployee_no_match.
    intros r p Hr Ha Hp Hd.
    destruct (Hrows r Hr) as [[_ Hs]|[Hne Hin]]; [congruence|].
    apply Hne. exact (Huniq r p Hin Ha Hp Hd).
Qed.





(** ** List query shape *)

(** X15. No filter object can widen a listing.  The conditions of
    [getEmployees] always start with the Active scope, and what follows are
    filter conditions only: at most six, at most one per filter field. *)
Theorem getEmployeesQuery_keeps_active_scope
    (filters : option FilterEmployeeDto) :
  exists rest,
    getEmployeesQuery filters = W_cond C_status_active :: rest
    /\ Forall (fun w => fieldOf w <> None) rest
    /\ NoDup (map fieldOf rest)
    /\ (List.length rest <= 6)%nat.
Proof.
  destruct filters as [f|].
  - unfold getEmployeesQuery, filterEmployees, andWhere.
    destruct (truthy (f_dni f)), (truthy (f_email f)),
      (truthy (f_completeName f)), (truthy (f_vaccine f)),
      (truthy (f_isVaccinated f)),
      (truthy (f_startDate f) && truthy (f_finishDate f));
      cbn [app]; eexists; (split; [reflexivity|]);
      (split; [repeat constructor; discriminate|]);
      (split; [|cbn; lia]);
      cbn [map fieldOf];
      repeat (constructor; [cbn; intuition discriminate|]);
      constructor.
  - exists []. cbn. split; [reflexivity|]. split; [constructor|].
    split; [constructor|lia].
Qed.

(** ** Invariants of the mutation flow *)

Lemma existsb_key {A} (key : A -> Z) (k : Z) (l : list A) :
  existsb (fun x => key x =? k) l = existsb (fun i => i =? k) (map key l).
Proof. induction l as [|a l IH]; cbn; [reflexivity|now rewrite IH]. Qed.

Lemma forallb_key {A} (key : A -> Z) (P : Z -> bool) (l : list A) :
  forallb (fun x => P (key x)) l = forallb P (map key l).
Proof. induction l as [|a l IH]; cbn; [reflexivity|now rewrite IH]. Qed.

Lemma forallb_pointwise {A} (f g : A -> bool) (l : list A) :
  (forall x, f x = g x) -> forallb f l = forallb g l.
Proof.
  intros H. induction l as [|a l IH]; cbn; [reflexivity|].
  now rewrite H, IH.
Qed.

Lemma keysResolve_columns st :
  keysResolve st
  = keysResolveColumns
      (map person_id (persons st)) (map employee_personId (employees st))
      (map employee_id (employees st)) (map user_employeeId (users st))
      (map user_id (users st)) (map userRole_userId (userRoles st))
      (map employeeVaccination_employeeId (employeeVaccinations st)).
Proof.
  unfold keysResolve, keysResolveColumns.
  rewrite <- !forallb_key.
  f_equal; [f_equal; [f_equal|]|];
    apply forallb_pointwise; intros x; apply existsb_key.
Qed.

Lemma forallb_existsb_grow (l : list Z) (ids extra : list Z) :
  forallb (fun k => existsb (fun i => i =? k) ids) l = true ->
  forallb (fun k => existsb (fun i => i =? k) (ids ++ extra)) l = true.
Proof.
  rewrite !forallb_forall. intros H k Hk.
  rewrite existsb_app, (H k Hk). reflexivity.
Qed.

Lemma existsb_last (ids : list Z) (k : Z) :
  existsb (fun i => i =? k) (ids ++ [k]) = true.
Proof.
  rewrite existsb_app. cbn. rewrite Z.eqb_refl. now rewrite orb_true_r.
Qed.

(** X16. Referential integrity is an invariant of the mutation flow: on a
    store where every employee names a stored person, every user a stored
    employee, every user role a stored user and every vaccination a stored
    employee, the same holds after a successful [createEmploye] and after
    every [updateEmployee], whatever its arguments and outcome. *)
Theorem mutations_keep_keys_resolved (st : Store) :
  keysResolve st = true ->
  (forall dto now r st',
     createEmploye dto now st = (Ok r, st') -> keysResolve st' = true)
  /\ (forall dni role type dto res st',
        updateEmployee dni role type dto st = (res, st') ->
        keysResolve st' = true).
Proof.
  intros Hk. split.
  - intros dto now r st' H. apply createEmploye_Ok_inv in H.
    destruct H as (_ & _ & _ & p & e & u & ur & Hrows & _).
    destruct Hrows as (Hps & Hes & Hus & Hurs & _ & Hevs & _
                       & Hp & He & Hu & Hur).
    rewrite keysResolve_columns in Hk |- *.
    rewrite Hps, Hes, Hus, Hurs, Hevs, !map_app.
    unfold keysResolveColumns in *.
    rewrite !andb_true_iff in Hk. destruct Hk as [[[K1 K2] K3] K4].
    rewrite !forallb_app, !andb_true_iff. cbn [map forallb].
    replace (employee_personId e) with (person_id p) by now rewrite He.
    replace (user_employeeId u) with (employee_id e) by now rewrite Hu.
    replace (userRole_userId ur) with (user_id u) by now rewrite Hur.
    rewrite !existsb_last. cbn [andb].
    repeat split; now apply forallb_existsb_grow.
  - intros dni role type dto res st' H.
    pose proof (updateEmployee_run_frame dni role type dto st) as F.
    rewrite H in F. cbn [snd] in F.
    destruct F as (H1 & H2 & _ & _ & H3 & _ & H4 & _ & _ & H5 & H6 & _ & H7 & _).
    rewrite keysResolve_columns in Hk |- *.
    now rewrite H1, H2, H3, H4, H5, H6, H7.
Qed.



Lemma updateEmployee_Deleted_full dni role type dto st st' msg id s name d m :
  updateEmployee dni role type dto st = (Ok (Deleted msg id s name d m), st') ->
  dni <> 0
  /\ exists r p,
       In r (employees st) /\ employee_status r = Active
       /\ In p (persons st) /\ person_dni p = dni
       /\ id = employee_id r /\ d = dni /\ m = employee_email r
       /\ persons st' = persons st
       /\ forall x, In x (employees st') ->
            (employee_id x = id /\ employee_status x = Inactive)
            \/ (employee_id x <> id /\ In x (employees st)).
Proof.
  rewrite updateEmployee_run.
  destruct (getOne st _) as [found|] eqn:He; [|discriminate].
  destruct (Z.eqb_spec dni 0) as [->|Hd]; [cbn; discriminate|].
  destruct (getOne_by_dni_sound st dni found Hd He)
    as (r & p & Hin & -> & Ha & Hp & Hdni).
  destruct (_ && _ && _).
  - rewrite softDelete_run, Hp. intros [= _ <- _ _ <- <- <-].
    split; [exact Hd|]. exists r, p. cbn in Hp.
    split; [exact Hin|]. split; [exact Ha|].
    split; [now apply find_some in Hp|]. split; [exact Hdni|].
    split; [reflexivity|]. split; [exact Hdni|]. split; [reflexivity|].
    split; [reflexivity|].
    cbn. intros x Hx. apply in_map_iff in Hx. destruct Hx as (y & <- & Hy).
    destruct (Z.eqb_spec (employee_id y) (employee_id r)) as [E|E]; cbn;
      [left|right]; auto.
  - destruct (_ && _); [|discriminate].
    destruct dto as [dto|]; [|discriminate].
    rewrite applyUpdate_run. cbv zeta.
    destruct (truthyStr (u_password dto)); discriminate.
Qed.

(** X18. A soft delete frees the email but not the dni.  After
    [updateEmployee] has confirmed the deletion of an employee, every
    [createEmploye] with that employee's dni is still rejected with
    dni-exist, because the person row stays; a [createEmploye] with the
    deleted employee's (non-empty) email, a dni that no person carries and
    that the validator accepts succeeds, provided no other Active employee
    had that email. *)
Theorem softDelete_frees_email_not_dni
    (dni : Z) (role type : option string) (dto0 : option UpdateEmployeeDto)
    (st st' : Store) (msg : string) (id : Z) (s name : string) (d : Z)
    (m : string) :
  updateEmployee dni role type dto0 st
  = (Ok (Deleted msg id s name d m), st') ->
  (forall dto now,
     c_dni dto = dni -> createEmploye dto now st' = (Err dniExist, st'))
  /\ (forall dto now,
        c_email dto = m -> m <> ""%string ->
        (forall r, In r (employees st) -> employee_status r = Active ->
                   employee_email r = m -> employee_id r = id) ->
        (forall p, In p (persons st) -> person_dni p <> c_dni dto) ->
        validateID (String_ (c_dni dto)) = true ->
        exists r st'', createEmploye dto now st' = (Ok r, st'')).
Proof.
  intros H. apply updateEmployee_Deleted_full in H.
  destruct H as (Hd & r & p & Hin & Ha & Hp & Hdni & Hid & _ & Hm & Hps & Hrows).
  split.
  - intros dto now Hc. rewrite createEmploye_reads.
    destruct (getPerson_found st' (c_dni dto)) as [x ->]; [|reflexivity].
    exists p. rewrite Hps, Hc. auto.
  - intros dto now Hmail Hne Huniq Hfresh Hv. rewrite createEmploye_reads.
    rewrite (getPerson_none st' (c_dni dto)) by now rewrite Hps.
    cbn [isSome].
    assert (Hnone : getOne st' (getEmployeeQuery None (Some (c_email dto)) None)
                    = None).
    { rewrite getOne_rows, find_all_false; [reflexivity|].
      intros x Hx. apply narrowedBy_not. intros (Hact & _ & Hem & _).
      cbn in Hact, Hem. specialize (Hem (c_email dto) eq_refl).
      rewrite Hmail in Hem. specialize (Hem Hne).
      destruct (Hrows x Hx) as [[_ Hs]|[Hneq Hold]]; [congruence|].
      apply Hneq. now apply Huniq. }
    rewrite Hnone, Hv. cbn -[nextId String_]. do 2 eexists. reflexivity.
Qed.

(** ** Vaccine order *)

Lemma ascending_head_le v vs x :
  ascending (v :: vs) -> In x vs ->
  collate (vaccine_vaccineType v) (vaccine_vaccineType x) = true.
Proof.
  intros [Hv _] Hin. rewrite Forall_forall in Hv. now apply Hv.
Qed.

Lemma types_injective (l : list VaccineEntity) x y :
  NoDup (map vaccine_vaccineType l) -> In x l -> In y l ->
  vaccine_vaccineType x = vaccine_vaccineType y -> x = y.
Proof.
  induction l as [|a l IH]; cbn; [intros _ []|].
  intros Hnd Hx Hy E. inversion Hnd as [|? ? Hnot Hnd']; subst.
  destruct Hx as [->|Hx], Hy as [->|Hy]; auto.
  - exfalso. apply Hnot. rewrite E. now apply in_map.
  - exfalso. apply Hnot. rewrite <- E. now apply in_map.
Qed.

Lemma ascending_unique l1 :
  (forall a b, collate a b = true -> collate b a = true -> a = b) ->
  forall l2, ascending l1 -> ascending l2 -> Permutation l1 l2 ->
             NoDup (map vaccine_vaccineType l1) -> l1 = l2.
Proof.
  intros Hanti. induction l1 as [|a l1 IH]; intros l2 H1 H2 Hperm Hnd.
  - now apply Permutation_nil in Hperm.
  - destruct l2 as [|b l2];
      [apply Permutation_sym, Permutation_nil in Hperm; discriminate|].
    assert (Hab : a = b).
    { assert (Ha : In a (b :: l2))
        by (apply (Permutation_in _ Hperm); now left).
      assert (Hb : In b (a :: l1))
        by (apply (Permutation_in _ (Permutation_sym Hperm)); now left).
      destruct Ha as [<-|Ha]; [reflexivity|].
      destruct Hb as [->|Hb]; [reflexivity|].
      apply (types_injective (a :: l1)); [exact Hnd|now left|now right|].
      apply Hanti.
      - exact (ascending_head_le a l1 b H1 Hb).
      - exact (ascending_head_le b l2 a H2 Ha). }
    subst b. f_equal. apply IH.
    + exact (proj2 H1).
    + exact (proj2 H2).
    + exact (Permutation_cons_inv Hperm).
    + cbn in Hnd. now inversion Hnd.
Qed.

(** X19. When the Active vaccines have pairwise distinct types and the
    store's ordering is a total order, the list [getVaccines] returns is
    determined by which vaccines are Active: two stores with the same
    Active vaccines, held in any storage order, give the same list. *)
Theorem getVaccines_ignores_storage_order (st1 st2 : Store) :
  (forall a b, collate a b = true \/ collate b a = true) ->
  (forall a b c, collate a b = true -> collate b c = true ->
                 collate a c = true) ->
  (forall a b, collate a b = true -> collate b a = true -> a = b) ->
  Permutation (filter (fun v => isActive (vaccine_status v)) (vaccines st1))
              (filter (fun v => isActive (vaccine_status v)) (vaccines st2)) ->
  NoDup (map vaccine_vaccineType
           (filter (fun v => isActive (vaccine_status v)) (vaccines st1))) ->
  fst (getVaccines st1) = fst (getVaccines st2).
Proof.
  intros Htotal Htrans Hanti Hperm Hnd.
  unfold getVaccines, gets. cbn [fst]. f_equal.
  apply (ascending_unique _ Hanti).
  - now apply orderBy_ascending.
  - now apply orderBy_ascending.
  - rewrite <- !orderBy_perm. exact Hperm.
  - eapply Permutation_NoDup; [|exact Hnd].
    apply Permutation_map. apply orderBy_perm.
Qed.

End Services.

(** * Worked instances *)

Lemma String_leb_trans (a b c : string) :
  String.leb a b = true -> String.leb b c = true -> String.leb a c = true.
Proof.
  unfold String.leb. revert b c.
  induction a as [|x a IH]; intros [|y b] [|z c]; cbn; try congruence.
  unfold Ascii.compare.
  destruct (N.compare_spec (N_of_ascii x) (N_of_ascii y)),
    (N.compare_spec (N_of_ascii y) (N_of_ascii z)),
    (N.compare_spec (N_of_ascii x) (N_of_ascii z));
    try congruence; try lia; apply IH.
Qed.

(** Ana, the second employee of [twoStore], has no vaccination row and one
    role: her vaccines are null and her roles are not. *)
Lemma projection_null_never_empty_witness :
  exists r, myInformation 12345678 twoStore = (Ok r, twoStore)
            /\ emp_vaccines r = None
            /\ emp_roles r <> Some [].
Proof.
  destruct projection_null_never_empty as (_ & _ & _ & Hmy & Hvac & _).
  pose (row := mkEmployee 2 "ana@x.com" 19900101 "Main St 1" "0990000000"
                          false Active 20211102 2).
  destruct (Hmy 12345678 twoStore (joinEmployee twoStore row) eq_refl)
    as (r & Hr & Hnull & _ & _ & Hroles).
  - discriminate.
  - exists r. split; [exact Hr|]. split; [|exact Hroles].
    apply Hnull. apply Hvac.
    intros ev [<-|[]] H. discriminate H.
Defined.

(** [getEmployee(0)] on [twoStore] returns Bea, the first active employee. *)
Lemma getEmployee_falsy_arguments_first_active_witness :
  truthyNum (Some 0) = false
  /\ getEmployee (Some 0) None None twoStore
     = (Ok (Some (joinEmployee twoStore
                    (mkEmployee 1 "bea@x.com" 19850505 "Oak St 2" "0991111111"
                                true Active 20211101 1))),
        twoStore).
Proof.
  split; [reflexivity|].
  exact (proj1 (proj2 (getEmployee_falsy_arguments_first_active
                         twoStore (Some 0) None None
                         eq_refl eq_refl eq_refl))).
Defined.

(** The spec's soft-delete example: an ADMINISTRATOR deletes Ana. *)
Lemma updateEmployee_delete_only_status_witness :
  12345678 <> 0
  /\ exists e q st',
       updateEmployee eightChars tagHash 12345678 (Some User_ADMINISTRATOR)
                      (Some Type_DELETE) None anaStore
       = (Ok (Deleted "The employee has been deleted successfully"
                      (employee_id (employee_cols e)) "Inactive"
                      (person_firstName q ++ " " ++ person_lastName q)%string
                      (person_dni q) (employee_email (employee_cols e))),
          st')
       /\ sameOtherTables anaStore st'.
Proof.
  assert (Hd : 12345678 <> 0) by discriminate.
  split; [exact Hd|].
  destruct (updateEmployee_delete_only_status eightChars tagHash anaStore
              12345678 None
              (mkEmployee 1 "ana@x.com" 19900101 "Main St 1" "0990000000"
                          false Active 20211101 1)
              (mkPerson 1 12345678 "Ana" "Diaz" Active 20211101)
              Hd (or_introl eq_refl) eq_refl eq_refl eq_refl)
    as (e & q & st' & _ & _ & _ & _ & Hrun & _ & Hsame).
  exists e, q, st'. split; [exact Hrun|exact Hsame].
Defined.

(** A DELETE of Ana by a NURSE, and an UPDATE of a dni nobody has. *)
Lemma updateEmployee_not_found_witness :
  updateEmployee eightChars tagHash 12345678 (Some "NURSE") (Some Type_DELETE)
                 None anaStore
  = (Err employeeNotFound, anaStore)
  /\ updateEmployee eightChars tagHash 99999999 None (Some Type_UPDATE)
                    (Some badDniNoPassword) anaStore
     = (Err employeeNotFound, anaStore).
Proof.
  split.
  - apply (proj2 (proj2 (updateEmployee_not_found eightChars tagHash anaStore
                           12345678 (Some "NURSE") (Some Type_DELETE) None))).
    discriminate.
  - apply (proj1 (updateEmployee_not_found eightChars tagHash anaStore
                    99999999 None (Some Type_UPDATE)
                    (Some badDniNoPassword))).
    intros r p [<-|[]] _ [= <-]. discriminate.
Defined.

(** Creating Ana a second time, and creating Eva with Ana's email. *)
Lemma createEmploye_rejections_in_order_witness :
  createEmploye eightChars ana 20211201 anaStore = (Err dniExist, anaStore)
  /\ createEmploye eightChars eva 20211201 anaStore
     = (Err emailExist, anaStore).
Proof.
  split.
  - apply (proj1 (createEmploye_rejections_in_order eightChars ana 20211201
                    anaStore)).
    exists (mkPerson 1 12345678 "Ana" "Diaz" Active 20211101).
    split; [left; reflexivity|reflexivity].
  - apply (proj1 (proj2 (createEmploye_rejections_in_order eightChars eva
                           20211201 anaStore))).
    + intros p [<-|[]]. discriminate.
    + exists (mkEmployee 1 "ana@x.com" 19900101 "Main St 1" "0990000000"
                         false Active 20211101 1).
      split; [left; reflexivity|split; reflexivity].
Defined.

(** The spec's creation example: Ana on a store that holds only roles. *)
Lemma createEmploye_success_record_witness :
  createEmploye eightChars ana 20211101 seededStore = (Ok anaRecord, anaStore)
  /\ ce_username anaRecord = Some (c_email ana)
  /\ ce_password anaRecord = Some (String_ (c_dni ana))
  /\ ce_role anaRecord = Some (c_role ana).
Proof.
  assert (Hrun : createEmploye eightChars ana 20211101 seededStore
                 = (Ok anaRecord, anaStore)) by reflexivity.
  split; [exact Hrun|].
  destruct (createEmploye_success_record eightChars ana 20211101 seededStore
              anaStore anaRecord Hrun)
    as (_ & Hu & Hp & _ & Hr & _).
  split; [exact Hu|]. split; [exact Hp|].
  apply (Hr nurse); [left; reflexivity|reflexivity].
Defined.

(** C3, as stated, fails: the employee row that carries Eva's email is
    soft-deleted, no person has her dni, and the creation goes through and
    adds a row to each of the four tables. *)
Lemma createEmploye_accepts_email_of_inactive_employee :
  (exists e, In e (employees anaDeletedStore)
             /\ employee_email e = c_email eva)
  /\ (forall p, In p (persons anaDeletedStore) -> person_dni p <> c_dni eva)
  /\ exists r st',
       createEmploye eightChars eva 20211201 anaDeletedStore = (Ok r, st')
       /\ List.length (persons st') = 2%nat
       /\ List.length (employees st') = 2%nat
       /\ List.length (users st') = 2%nat
       /\ List.length (userRoles st') = 2%nat.
Proof.
  split; [|split].
  - eexists. split; [left; reflexivity|reflexivity].
  - intros p [<-|[]]. discriminate.
  - do 2 eexists. split; [lazy; reflexivity|]. repeat split.
Qed.

(** With an empty email the lookup of [createEmploye] is not narrowed and
    meets the first active employee: the rejection is email-exist although
    no employee carries the empty email, and although the dni is invalid. *)
Lemma createEmploye_empty_email_meets_first_active :
  (forall e, In e (employees anaStore) -> employee_email e <> c_email nemo)
  /\ (forall p, In p (persons anaStore) -> person_dni p <> c_dni nemo)
  /\ eightChars (String_ (c_dni nemo)) = false
  /\ createEmploye eightChars nemo 20211201 anaStore
     = (Err emailExist, anaStore).
Proof.
  repeat split.
  - intros e [<-|[]]. discriminate.
  - intros p [<-|[]]. discriminate.
Qed.

(** An update of Ana that carries a password. *)
Lemma updateEmployee_password_is_not_hashed_witness :
  exists st',
    updateEmployee eightChars tagHash 12345678 None (Some Type_UPDATE)
                   (Some badDniWithPassword) anaStore
    = (Err (BcryptError "data and salt arguments required"), st')
    /\ users st' = users anaStore.
Proof.
  apply (updateEmployee_password_is_not_hashed eightChars tagHash anaStore
           12345678 None badDniWithPassword
           (joinEmployee anaStore
              (mkEmployee 1 "ana@x.com" 19900101 "Main St 1" "0990000000"
                          false Active 20211101 1))).
  - discriminate.
  - reflexivity.
  - reflexivity.
Defined.

(** C6, on the code. The update of Ana with a dni that the validator
    rejects and with a password does not complete: the employee and the
    person are written, the person's dni is left as it was and the names
    are overwritten, and then the hashing step throws, so the call ends in
    an error instead of the update confirmation. *)
Theorem updateEmployee_invalid_dni_with_password_fails :
  eightChars (StringOpt (u_dni badDniWithPassword)) = false
  /\ exists st',
       updateEmployee eightChars tagHash 12345678 None (Some Type_UPDATE)
                      (Some badDniWithPassword) anaStore
       = (Err (BcryptError "data and salt arguments required"), st')
       /\ persons st'
          = [mkPerson 1 12345678 "Anna" "Diaz Vera" Active 20211101]
       /\ users st' = users anaStore.
Proof.
  split; [reflexivity|].
  eexists. split; [lazy; reflexivity|]. split; reflexivity.
Qed.

(** The active vaccines of [twoStore] under the byte order of strings. *)
Lemma getVaccines_active_ascending_witness :
  exists vs,
    getVaccines String.leb twoStore = (Ok vs, twoStore)
    /\ Permutation
         (filter (fun v => isActive (vaccine_status v)) (vaccines twoStore)) vs
    /\ ascending String.leb vs.
Proof.
  destruct (getVaccines_active_ascending String.leb twoStore
              String.leb_total String_leb_trans)
    as (vs & Hrun & Hperm & _ & Hasc & _).
  exists vs. auto.
Defined.

(** * Worked instances of the further properties *)

(** Looking Ana up by her dni in [twoStore]: she is the second joined
    employee, and Bea, before her, does not meet the dni. *)
Lemma getEmployee_first_narrowed_witness :
  exists pre post,
    createQueryBuilder twoStore
    = pre ++ joinEmployee twoStore
               (mkEmployee 2 "ana@x.com" 19900101 "Main St 1" "0990000000"
                           false Active 20211102 2) :: post
    /\ narrowedBy (Some 12345678) None None
         (joinEmployee twoStore
            (mkEmployee 2 "ana@x.com" 19900101 "Main St 1" "0990000000"
                        false Active 20211102 2))
    /\ Forall (fun x => ~ narrowedBy (Some 12345678) None None x) pre.
Proof.
  apply (proj1 (proj1 (getEmployee_first_narrowed twoStore (Some 12345678)
                         None None) _)).
  reflexivity.
Defined.

(** The graph of Bea in [twoStore]. *)
Lemma getEmployee_graph_is_active_witness :
  graphActive
    (joinEmployee twoStore
       (mkEmployee 1 "bea@x.com" 19850505 "Oak St 2" "0991111111" true
                   Active 20211101 1)).
Proof.
  apply (getEmployee_graph_is_active twoStore (Some 11111111) None None).
  reflexivity.
Defined.

(** Bea is found by email whether her person is Active or not. *)
Lemma getEmployee_ignores_relations_witness :
  option_map employee_cols
    (getOne twoStore (getEmployeeQuery None (Some "bea@x.com") None))
  = option_map employee_cols
      (getOne orphanStore (getEmployeeQuery None (Some "bea@x.com") None)).
Proof.
  apply (getEmployee_ignores_relations twoStore orphanStore None
           (Some "bea@x.com") None); reflexivity.
Defined.

(** A dni nobody has, and dni 0, which answers with Bea. *)
Lemma myInformation_missing_and_zero_witness :
  myInformation 99999999 twoStore = (Err (TypeError "employee.id"), twoStore)
  /\ myInformation 0 twoStore
     = (mapEmployee
          (joinEmployee twoStore
             (mkEmployee 1 "bea@x.com" 19850505 "Oak St 2" "0991111111" true
                         Active 20211101 1)),
        twoStore).
Proof.
  destruct (myInformation_missing_and_zero twoStore) as (Hmiss & Hzero & _).
  split.
  - apply Hmiss; [discriminate|].
    intros r p [<-|[<-|[]]] _ [= <-]; discriminate.
  - apply (Hzero []
             (mkEmployee 1 "bea@x.com" 19850505 "Oak St 2" "0991111111" true
                         Active 20211101 1)
             [mkEmployee 2 "ana@x.com" 19900101 "Main St 1" "0990000000"
                         false Active 20211102 2]);
      [reflexivity|constructor|reflexivity].
Defined.

(** In [orphanStore] Bea has no joined person: projecting the two joined
    employees throws. *)
Lemma mapEmployees_all_or_nothing_witness :
  mapEmployees (createQueryBuilder orphanStore)
  = Err (TypeError "employee.person.dni").
Proof.
  apply (proj2 (proj2 (mapEmployees_all_or_nothing
                         (createQueryBuilder orphanStore)))).
  eexists. split; [left; reflexivity|reflexivity].
Defined.

(** A filter object with only falsy fields and a lone start date. *)
Lemma listEmployees_falsy_filter_is_no_filter_witness :
  listEmployees scanExact
    (Some (mkFilter (JNum 0) (JStr "") JNull JUndefined (JBool false)
                    (JStr "2021-01-01") JUndefined)) twoStore
  = listEmployees scanExact None twoStore.
Proof.
  apply (proj2 (listEmployees_falsy_filter_is_no_filter scanExact twoStore
                  (mkFilter (JNum 0) (JStr "") JNull JUndefined (JBool false)
                            (JStr "2021-01-01") JUndefined)
                  eq_refl eq_refl eq_refl eq_refl eq_refl eq_refl)).
Defined.

(** Listing [orphanStore], where Bea's person is Inactive, throws. *)
Lemma listEmployees_unfiltered_witness :
  listEmployees scanExact None orphanStore
  = (Err (TypeError "employee.person.dni"), orphanStore).
Proof.
  apply (proj1 (listEmployees_unfiltered scanExact orphanStore eq_refl)).
  exists (mkEmployee 1 "bea@x.com" 19850505 "Oak St 2" "0991111111" true
                     Active 20211101 1).
  split; [left; reflexivity|split; reflexivity].
Defined.

(** Ana can be created on [seededStore]. *)
Lemma createEmploye_success_exactly_witness :
  exists r st', createEmploye eightChars ana 20211101 seededStore = (Ok r, st').
Proof.
  apply (proj1 (proj1 (createEmploye_success_exactly eightChars ana 20211101
                         seededStore))).
  split; [intros p []|split; reflexivity].
Defined.

(** Creating Ana again after she was created. *)
Lemma createEmploye_twice_is_rejected_witness :
  createEmploye eightChars ana 20211201 anaStore = (Err dniExist, anaStore).
Proof.
  apply (proj1 (createEmploye_twice_is_rejected eightChars ana 20211101
                  seededStore anaStore anaRecord eq_refl)).
  reflexivity.
Defined.

(** Ana reads her record back, password included. *)
Lemma createEmploye_then_myInformation_witness :
  exists info,
    myInformation 12345678 anaStore = (Ok info, anaStore)
    /\ emp_username info = Some "ana@x.com"%string
    /\ emp_password info = Some "12345678"%string
    /\ emp_vaccines info = None.
Proof.
  assert (Hd : c_dni ana <> 0) by discriminate.
  destruct (createEmploye_then_myInformation eightChars ana 20211101
              seededStore anaStore anaRecord eq_refl Hd eq_refl)
    as (info & Hrun & _ & _ & _ & _ & _ & _ & _ & _ & _ & Hu & Hp & Hv & _).
  exists info. auto.
Defined.

(** The soft delete of Ana, from [anaStore] to [anaDeletedStore]. *)
Lemma updateEmployee_frame_witness : updateFrame anaStore anaDeletedStore.
Proof.
  apply (updateEmployee_frame eightChars tagHash 12345678
           (Some User_ADMINISTRATOR) (Some Type_DELETE) None anaStore
           anaDeletedStore
           (Ok (Deleted "The employee has been deleted successfully" 1
                        "Inactive" "Ana Diaz" 12345678 "ana@x.com"))).
  reflexivity.
Defined.

(** After the soft delete no lookup returns employee 1, and a second
    delete of dni 12345678 finds nobody. *)
Lemma softDelete_hides_employee_witness :
  (forall a b c e,
     getOne anaDeletedStore (getEmployeeQuery a b c) = Some e ->
     employee_id (employee_cols e) <> 1)
  /\ updateEmployee eightChars tagHash 12345678 (Some User_ADMINISTRATOR)
                    (Some Type_DELETE) None anaDeletedStore
     = (Err employeeNotFound, anaDeletedStore).
Proof.
  destruct (softDelete_hides_employee eightChars tagHash 12345678
              (Some User_ADMINISTRATOR) (Some Type_DELETE) None anaStore
              anaDeletedStore "The employee has been deleted successfully" 1
              "Inactive" "Ana Diaz" 12345678 "ana@x.com" eq_refl)
    as (_ & Hhidden & Hagain).
  split; [exact Hhidden|].
  apply Hagain. intros r p [<-|[]] _ _ _. reflexivity.
Defined.



(** The keys of [anaStore] still resolve after Ana's soft delete. *)
Lemma mutations_keep_keys_resolved_witness :
  keysResolve anaDeletedStore = true.
Proof.
  apply (proj2 (mutations_keep_keys_resolved eightChars tagHash anaStore
                  eq_refl)
           12345678 (Some User_ADMINISTRATOR) (Some Type_DELETE) None
           (Ok (Deleted "The employee has been deleted successfully" 1
                        "Inactive" "Ana Diaz" 12345678 "ana@x.com"))
           anaDeletedStore).
  reflexivity.
Defined.


(** After Ana's soft delete her dni stays taken, and Eva gets her email. *)
Lemma softDelete_frees_email_not_dni_witness :
  createEmploye eightChars ana 20211201 anaDeletedStore
  = (Err dniExist, anaDeletedStore)
  /\ exists r st'',
       createEmploye eightChars eva 20211201 anaDeletedStore = (Ok r, st'').
Proof.
  destruct (softDelete_frees_email_not_dni eightChars tagHash 12345678
              (Some User_ADMINISTRATOR) (Some Type_DELETE) None anaStore
              anaDeletedStore "The employee has been deleted successfully" 1
              "Inactive" "Ana Diaz" 12345678 "ana@x.com" eq_refl)
    as (Hdni & Hmail).
  split.
  - apply Hdni. reflexivity.
  - apply Hmail.
    + reflexivity.
    + discriminate.
    + intros r [<-|[]] _ _. reflexivity.
    + intros p [<-|[]]. discriminate.
    + reflexivity.
Defined.

(** [twoStore] and [shuffledStore] list the same vaccines. *)
Lemma getVaccines_ignores_storage_order_witness :
  fst (getVaccines String.leb twoStore)
  = fst (getVaccines String.leb shuffledStore).
Proof.
  apply (getVaccines_ignores_storage_order String.leb twoStore shuffledStore
           String.leb_total String_leb_trans String.leb_antisym).
  - cbn. apply perm_swap.
  - cbn. repeat constructor; cbn; intuition discriminate.
Defined.
